(** * Brand-protection scraper: the matching filter and the scraping loop

    A shallow embedding of [scraper1_app.py]: [fuzzy_match_brand],
    [get_site_configs] and [run_scraper], with the properties of the
    matching filter, the fallback selectors, the per-task cap, the error
    boundary of a task and the progress counter.

    Python strings are modelled as [string] whose characters are read as
    the code points 0..255; integers as [Z]; floats as IEEE binary64
    through [SpecFloat] (precision 53, emax 1024). *)

From Stdlib Require Import ZArith Lia Bool List Ascii String.
From Stdlib Require Import Floats.SpecFloat.
From stdpp Require Import base gmap strings list.

Open Scope string_scope.
Open Scope Z_scope.

(** ** Strings *)

Module Str.

(** [len(s)] *)
Definition len (s : string) : Z := Z.of_nat (String.length s).

(** [c.lower()] on the code points below 256: A-Z and the Latin-1
    capitals (0xC0-0xDE without the multiplication sign 0xD7). *)
Definition lower_char (c : ascii) : ascii :=
  let n := nat_of_ascii c in
  if ((65 <=? n)%nat && (n <=? 90)%nat)
     || ((192 <=? n)%nat && (n <=? 222)%nat && negb (n =? 215)%nat)
  then ascii_of_nat (n + 32) else c.

(** [s.lower()] *)
Fixpoint lower (s : string) : string :=
  match s with
  | EmptyString => EmptyString
  | String c s' => String (lower_char c) (lower s')
  end.

(** The characters [str.split()] and [str.strip()] take as white space:
    tab, LF, VT, FF, CR, FS, GS, RS, US, space, NEL and NBSP. *)
Definition isspace (c : ascii) : bool :=
  let n := nat_of_ascii c in
  ((9 <=? n)%nat && (n <=? 13)%nat)
  || ((28 <=? n)%nat && (n <=? 32)%nat)
  || (n =? 133)%nat || (n =? 160)%nat.

(** [sub in s]: [sub] occurs in [s] as a contiguous run. *)
Fixpoint contains (sub s : string) : bool :=
  if String.prefix sub s then true
  else match s with
       | EmptyString => false
       | String _ s' => contains sub s'
       end.

(** [s.split()]: the maximal runs of characters that are not white
    space, in order; [cur] is the run being read. *)
Fixpoint split_from (cur : string) (s : string) : list string :=
  match s with
  | EmptyString => if String.eqb cur EmptyString then [] else [cur]
  | String c s' =>
      if isspace c
      then (if String.eqb cur EmptyString then split_from EmptyString s'
            else cur :: split_from EmptyString s')
      else split_from (cur ++ String c EmptyString) s'
  end.

Definition split (s : string) : list string := split_from EmptyString s.

(** [s.lstrip()], [s.rstrip()] and [s.strip()] *)
Fixpoint lstrip (s : string) : string :=
  match s with
  | EmptyString => EmptyString
  | String c s' => if isspace c then lstrip s' else s
  end.

Fixpoint rstrip (s : string) : string :=
  match s with
  | EmptyString => EmptyString
  | String c s' =>
      match rstrip s' with
      | EmptyString => if isspace c then EmptyString else String c EmptyString
      | r => String c r
      end
  end.

Definition strip (s : string) : string := rstrip (lstrip s).

(** [s.replace(' ', by_)] *)
Fixpoint replace_space (by_ : string) (s : string) : string :=
  match s with
  | EmptyString => EmptyString
  | String c s' =>
      if Ascii.eqb c " "%char then by_ ++ replace_space by_ s'
      else String c (replace_space by_ s')
  end.

End Str.

(** ** Floats *)

Module Float.

Definition prec : Z := 53.
Definition emax : Z := 1024.

(** [float(n)] for an integer [n] *)
Definition of_Z (n : Z) : spec_float := binary_normalize prec emax n 0 false.

Definition mul : spec_float -> spec_float -> spec_float := SFmul prec emax.
Definition div : spec_float -> spec_float -> spec_float := SFdiv prec emax.

(** [x >= n] for a float [x] and an integer [n]; Python compares the two
    exactly, without rounding [n] to a float. *)
Definition ge_Z (x : spec_float) (n : Z) : bool :=
  match x with
  | S754_zero _ => n <=? 0
  | S754_infinity s => negb s
  | S754_nan => false
  | S754_finite s m e =>
      let v := if s then Z.neg m else Z.pos m in
      if 0 <=? e then n <=? v * 2 ^ e
      else n * 2 ^ (- e) <=? v
  end.

End Float.

(** ** Results of fallible calls *)

(** The exceptions the scraping loop can meet. *)
Inductive exn :=
| AttributeError (msg : string)
| KeyError (key : string)
| WebDriverException (msg : string)
| ZeroDivisionError.

Inductive result (A : Type) :=
| Ok (a : A)
| Raise (e : exn).
Arguments Ok {A} a.
Arguments Raise {A} e.

Definition bind {A B} (r : result A) (k : A -> result B) : result B :=
  match r with
  | Ok a => k a
  | Raise e => Raise e
  end.

Notation "x <- c ;; k" := (bind c (fun x => k))
  (at level 100, c at next level, right associativity).

(** ** difflib.SequenceMatcher

    [SequenceMatcher(None, a, b).ratio()] belongs to the Python standard
    library.  The matcher and the scraping loop are parametric in it; the
    module [Difflib] below is an executable model of it. *)

Class SequenceMatcher := ratio : string -> string -> spec_float.

Module Difflib.

Section Blocks.
Variables a b : list ascii.

Definition at_ (l : list ascii) (i : nat) : ascii := nth i l "000"%char.

Definition occurrences (c : ascii) : nat :=
  length (List.filter (Ascii.eqb c) b).

(** [bpopular]: with [autojunk], in a [b] of 200 elements or more, the
    elements that occur more than [n // 100 + 1] times. *)
Definition popular (c : ascii) : bool :=
  ((200 <=? length b) && (length b / 100 + 1 <? occurrences c))%nat.

(** [b2j.get(c, [])]: the positions of [c] in [b], ascending; none for
    a popular element. *)
Definition b2j (c : ascii) : list nat :=
  if popular c then []
  else List.filter (fun j => Ascii.eqb (at_ b j) c) (seq 0 (length b)).

Definition j2len_get (j2len : list (nat * nat)) (j : nat) : nat :=
  match List.find (fun p => (fst p =? j)%nat) j2len with
  | Some p => snd p
  | None => 0%nat
  end.

Definition Match : Type := nat * nat * nat.

Section Longest.
Variables alo ahi blo bhi : nat.

(** The body of [for j in b2j.get(a[i], nothing)]. *)
Definition step_j (i : nat) (j2len : list (nat * nat))
    (acc : list (nat * nat) * Match) (j : nat) : list (nat * nat) * Match :=
  let '(newj2len, (besti, bestj, bestsize)) := acc in
  if (j <? blo)%nat then acc
  else
    let k := (match j with
              | O => 0
              | S j' => j2len_get j2len j'
              end + 1)%nat in
    ((j, k) :: newj2len,
     if (bestsize <? k)%nat then (i + 1 - k, j + 1 - k, k)%nat
     else (besti, bestj, bestsize)).

(** The body of [for i in range(alo, ahi)]; the inner loop leaves at
    the first [j >= bhi]. *)
Definition step_i (acc : list (nat * nat) * Match) (i : nat)
    : list (nat * nat) * Match :=
  let '(j2len, best) := acc in
  let js := List.filter (fun j => (j <? bhi)%nat) (b2j (at_ a i)) in
  fold_left (step_j i j2len) js ([], best).

Fixpoint extend_left (fuel : nat) (m : Match) : Match :=
  let '(besti, bestj, bestsize) := m in
  match fuel with
  | O => m
  | S fuel' =>
      if ((alo <? besti) && (blo <? bestj))%nat
         && Ascii.eqb (at_ a (besti - 1)) (at_ b (bestj - 1))
      then extend_left fuel' (besti - 1, bestj - 1, bestsize + 1)%nat
      else m
  end.

Fixpoint extend_right (fuel : nat) (m : Match) : Match :=
  let '(besti, bestj, bestsize) := m in
  match fuel with
  | O => m
  | S fuel' =>
      if ((besti + bestsize <? ahi) && (bestj + bestsize <? bhi))%nat
         && Ascii.eqb (at_ a (besti + bestsize)) (at_ b (bestj + bestsize))
      then extend_right fuel' (besti, bestj, bestsize + 1)%nat
      else m
  end.

(** [find_longest_match(alo, ahi, blo, bhi)] with no junk. *)
Definition find_longest_match : Match :=
  let best :=
    snd (fold_left step_i (seq alo (ahi - alo)) ([], (alo, blo, 0%nat))) in
  extend_right (length a) (extend_left (length a) best).
End Longest.

(** The sum of the sizes of [get_matching_blocks()]: a longest match,
    then the pieces to its left and to its right.  The depth is at
    most the length of [a]. *)
Fixpoint matched (fuel : nat) (alo ahi blo bhi : nat) : nat :=
  match fuel with
  | O => 0%nat
  | S fuel' =>
      let '(i, j, k) := find_longest_match alo ahi blo bhi in
      if (k =? 0)%nat then 0%nat
      else
        (k
         + (if (alo <? i) && (blo <? j)
            then matched fuel' alo i blo j else 0)
         + (if (i + k <? ahi) && (j + k <? bhi)
            then matched fuel' (i + k) ahi (j + k) bhi else 0))%nat
  end.

Definition matches : nat :=
  matched (S (length a)) 0 (length a) 0 (length b).
End Blocks.

(** [_calculate_ratio(matches, length)] *)
Definition calculate_ratio (matches length : nat) : spec_float :=
  if (length =? 0)%nat then Float.of_Z 1
  else Float.div (Float.mul (Float.of_Z 2) (Float.of_Z (Z.of_nat matches)))
                 (Float.of_Z (Z.of_nat length)).

Definition ratio (a b : string) : spec_float :=
  let la := list_ascii_of_string a in
  let lb := list_ascii_of_string b in
  calculate_ratio (matches la lb) (length la + length lb).

Definition matcher : SequenceMatcher := ratio.

End Difflib.

(** ** The fuzzy matcher *)

Section Matcher.
Context {SM : SequenceMatcher}.

(** [similarity >= threshold] with
    [similarity = SequenceMatcher(None, brand_lower, word).ratio() * 100] *)
Definition similar (brand_lower word : string) (threshold : Z) : bool :=
  Float.ge_Z (Float.mul (ratio brand_lower word) (Float.of_Z 100)) threshold.

(** A token the loop of [fuzzy_match_brand] stops at. *)
Definition qualifies (brand_lower : string) (threshold : Z)
    (word : string) : bool :=
  (3 <=? Str.len word) && similar brand_lower word threshold.

(** The loop [for word in words] of [fuzzy_match_brand]. *)
Fixpoint scan_words (brand_lower : string) (threshold : Z)
    (words : list string) : bool :=
  match words with
  | [] => false
  | word :: rest =>
      if 3 <=? Str.len word then
        if similar brand_lower word threshold then true
        else scan_words brand_lower threshold rest
      else scan_words brand_lower threshold rest
  end.

(** The same loop, with the words handed to [SequenceMatcher] on the
    way, in order. *)
Fixpoint scan_words_calls (brand_lower : string) (threshold : Z)
    (words : list string) : list string * bool :=
  match words with
  | [] => ([], false)
  | word :: rest =>
      if 3 <=? Str.len word then
        if similar brand_lower word threshold then ([word], true)
        else let '(calls, r) := scan_words_calls brand_lower threshold rest in
             (word :: calls, r)
      else scan_words_calls brand_lower threshold rest
  end.

(** [fuzzy_match_brand(text, brand_name, threshold)]; [fuzzy_enabled] is
    the global the function reads. *)
Definition fuzzy_match_brand (fuzzy_enabled : bool)
    (text brand_name : string) (threshold : Z) : bool :=
  if negb fuzzy_enabled then
    Str.contains (Str.lower brand_name) (Str.lower text)
  else
    let text_lower := Str.lower text in
    let brand_lower := Str.lower brand_name in
    if Str.contains brand_lower text_lower then true
    else scan_words brand_lower threshold (Str.split text_lower).

End Matcher.

(** ** The input table *)

(** A cell of the table read by [pd.read_csv]: missing (the float NaN), a
    string, or another scalar, kept with what [str] prints for it. *)
Inductive cell :=
| NaN
| Text (s : string)
| Number (shown : string).

(** [pd.notna(c)] *)
Definition notna (c : cell) : bool :=
  match c with
  | NaN => false
  | _ => true
  end.

(** [str(c)] *)
Definition str (c : cell) : string :=
  match c with
  | NaN => "nan"
  | Text s => s
  | Number shown => shown
  end.

(** A table: the column labels, all different, and the rows, each with
    one cell per column. *)
Record DataFrame := {
  columns : list string;
  rows : list (list cell)
}.

(** [row[col]]: the cell under the label [col], [None] for a KeyError. *)
Fixpoint row_get (cols : list string) (row : list cell) (col : string)
    : option cell :=
  match cols, row with
  | c :: cols', x :: row' =>
      if String.eqb c col then Some x else row_get cols' row' col
  | _, _ => None
  end.

(** [[col for col in df_input.columns if 'Keyword' in col]] *)
Definition keyword_columns (cols : list string) : list string :=
  List.filter (Str.contains "Keyword") cols.

(** [[str(row[col]) for col in row.index
      if 'Keyword' in col and pd.notna(row[col])]] *)
Fixpoint keywords_of (cols : list string) (row : list cell) : list string :=
  match cols, row with
  | col :: cols', x :: row' =>
      if Str.contains "Keyword" col && notna x
      then str x :: keywords_of cols' row'
      else keywords_of cols' row'
  | _, _ => []
  end.

(** ** The check of the uploaded table *)

(** Lines 109-117: what the preview says about the columns. *)
Inductive Validation :=
| no_brand_column
| no_keyword_column
| found (brands keyword_cols : nat).

Definition validate (df_input : DataFrame) : Validation :=
  if negb (existsb (String.eqb "Brand") (columns df_input))
  then no_brand_column
  else match keyword_columns (columns df_input) with
       | [] => no_keyword_column
       | _ :: _ =>
           found (length (rows df_input))
                 (length (keyword_columns (columns df_input)))
       end.

(** Every row has one cell per column. *)
Definition well_formed (df : DataFrame) : Prop :=
  Forall (fun row => length row = length (columns df)) (rows df).

(** ** Site profiles and settings *)

(** A piece of a URL template: text, [{search_term}] or [{page}]. *)
Inductive segment :=
| Lit (s : string)
| SearchTerm
| PageNo.

Record SiteConfig := {
  url_template : list segment;
  url_encoding : string;
  product_selector : string;
  brand_in_url : bool;
  domain_check : string;
  additional_selectors : list string
}.

(** [url_template.format(search_term=term, page=page)] *)
Definition format (template : list segment) (term page : string) : string :=
  fold_right
    (fun seg rest =>
       match seg with
       | Lit s => s ++ rest
       | SearchTerm => term ++ rest
       | PageNo => page ++ rest
       end) EmptyString template.

(** The double quote inside the CSS selectors. *)
Definition dq : string := String (ascii_of_nat 34) EmptyString.

(** The three entries of [all_configs]. *)
Definition alibaba : SiteConfig :=
  {| url_template :=
       [Lit "https://www.alibaba.com/trade/search?SearchText="; SearchTerm;
        Lit "&page="; PageNo];
     url_encoding := "%20";
     product_selector := "a[href*=" ++ dq ++ "/product-detail/" ++ dq ++ "]";
     brand_in_url := true;
     domain_check := "alibaba.com";
     additional_selectors := [] |}.

Definition dhgate : SiteConfig :=
  {| url_template :=
       [Lit "https://www.dhgate.com/wholesale/search.do?act=search&searchkey=";
        SearchTerm; Lit "&pageNum="; PageNo];
     url_encoding := "+";
     product_selector := "a[href*=" ++ dq ++ "/product/" ++ dq ++ "]";
     brand_in_url := false;
     domain_check := "dhgate.com";
     additional_selectors := [] |}.

Definition made_in_china : SiteConfig :=
  {| url_template :=
       [Lit "https://www.made-in-china.com/products-search/hot-china-products/";
        SearchTerm; Lit ".html?page="; PageNo];
     url_encoding := "-";
     product_selector := "a[href*=" ++ dq ++ "/product/" ++ dq ++ "]";
     brand_in_url := false;
     domain_check := "made-in-china.com";
     additional_selectors :=
       ["a[href*=" ++ dq ++ "/prod/" ++ dq ++ "]"; ".item-link a";
        ".product-item a"] |}.

Definition all_configs : list (string * SiteConfig) :=
  [("Alibaba", alibaba); ("DHgate", dhgate); ("Made-in-China", made_in_china)].

(** The module-level settings read from the sidebar. *)
Record Settings := {
  sites_config : gmap string bool;
  fuzzy_enabled : bool;
  fuzzy_threshold : Z;
  max_links_per_site : Z;
  scroll_delay : Z;
  page_delay : Z
}.

(** [sites_config.get(k, False)] *)
Definition site_enabled (cfg : gmap string bool) (k : string) : bool :=
  default false (cfg !! k).

(** [get_site_configs()]: the profiles of the selected sites, in the
    order of [all_configs]. *)
Definition get_site_configs (cfg : gmap string bool)
    : list (string * SiteConfig) :=
  List.filter (fun kv => site_enabled cfg (fst kv)) all_configs.

(** ** The browser *)

(** An element found on a page: [get_attribute(name)] and [.text]; either
    can raise. *)
Record WebElement := {
  get_attribute : string -> result (option string);
  text : result string
}.

(** What the browser does for one task: the outcome of [driver.get], of
    [driver.execute_script] and of [driver.find_elements] per selector. *)
Record Page := {
  get : result unit;
  execute_script : string -> result unit;
  find_elements : string -> result (list WebElement)
}.

(** The browser session: whether Chrome starts, and the page answering
    the request made by the task numbered [n]. *)
Record WebDriver := {
  start : result unit;
  page_at : Z -> string -> Page
}.

(** What [run_scraper] does to the outside, in order. *)
Inductive Event :=
| st_error (e : exn)
| progress_bar_progress (progress : spec_float)
| status_text (site_name search_term : string)
| driver_get (url : string)
| time_sleep (secs : Z)
| driver_execute_script (script : string)
| driver_find_elements (selector : string)
| st_warning (site_name : string) (e : exn)
| driver_quit.

(** A row of the result table. *)
Record Row := {
  Brand : cell;
  Keyword : string;
  Site : string;
  Product_URL : string;
  Scraped_At : string
}.

(** What the loops of [run_scraper] carry along. *)
Record State := {
  results : list Row;
  current_operation : Z;
  events : list Event
}.

(** The body of a [try] block: the events so far and how it ended. *)
Definition Try (A : Type) : Type := list Event * result A.

Definition ret {A} (a : A) : Try A := ([], Ok a).

Definition call {A} (ev : Event) (r : result A) : Try A := ([ev], r).

Definition lift {A} (r : result A) : Try A := ([], r).

Definition and_then {A B} (m : Try A) (k : A -> Try B) : Try B :=
  match m with
  | (evs, Ok a) => let '(evs', r) := k a in ((evs ++ evs')%list, r)
  | (evs, Raise e) => (evs, Raise e)
  end.

Notation "x <~ c ;; k" := (and_then c (fun x => k))
  (at level 100, c at next level, right associativity).

Definition scroll_script : string :=
  "window.scrollTo(0, document.body.scrollHeight);".

(** [x or ""] for an attribute value *)
Definition or_empty (x : option string) : string :=
  match x with
  | Some s => s
  | None => EmptyString
  end.

Section Scraper.
Context {SM : SequenceMatcher}.
Variable driver : WebDriver.
(** [datetime.now().strftime(...)] when the row numbered [n] is added. *)
Variable now : nat -> string.
Variable settings : Settings.

(** [fuzzy_match_brand(text, brand, fuzzy_threshold)] on a cell of the
    table: [brand_name.lower()] raises on a cell that is not a string. *)
Definition match_cell (text : string) (brand : cell) : result bool :=
  match brand with
  | Text brand_name =>
      Ok (fuzzy_match_brand (fuzzy_enabled settings) text brand_name
            (fuzzy_threshold settings))
  | NaN => Raise (AttributeError "'float' object has no attribute 'lower'")
  | Number _ => Raise (AttributeError "object has no attribute 'lower'")
  end.

(** Lines 260-272: [should_add] for a link that passed the domain
    check. *)
Definition should_add (config : SiteConfig) (brand : cell)
    (link : WebElement) (href : string) : result bool :=
  if brand_in_url config then match_cell href brand
  else
    link_text <- text link ;;
    title_attr <- get_attribute link "title" ;;
    alt_attr <- get_attribute link "alt" ;;
    let combined_text :=
      Str.strip link_text ++ " " ++ or_empty title_attr
        ++ " " ++ or_empty alt_attr in
    matched <- match_cell combined_text brand ;;
    Ok (if negb (fuzzy_enabled settings) then true else matched).

(** Lines 257-278: the loop [for link in links]. *)
Fixpoint scan_links (config : SiteConfig) (brand : cell)
    (links : list WebElement) (unique_links : gset string)
    : result (gset string) :=
  match links with
  | [] => Ok unique_links
  | link :: rest =>
      href <- get_attribute link "href" ;;
      match href with
      | Some h =>
          if negb (String.eqb h EmptyString)
             && Str.contains (domain_check config) h
          then
            add <- should_add config brand link h ;;
            let unique_links' :=
              if add : bool then unique_links ∪ {[ h ]} else unique_links in
            if max_links_per_site settings <=? Z.of_nat (size unique_links')
            then Ok unique_links'
            else scan_links config brand rest unique_links'
          else scan_links config brand rest unique_links
      | None => scan_links config brand rest unique_links
      end
  end.

(** Lines 254-255: [links.extend(driver.find_elements(..., selector))]
    for each fallback selector. *)
Fixpoint extend_links (page : Page) (selectors : list string)
    (links : list WebElement) : Try (list WebElement) :=
  match selectors with
  | [] => ret links
  | selector :: rest =>
      found <~ call (driver_find_elements selector)
                    (find_elements page selector) ;;
      extend_links page rest (links ++ found)%list
  end.

(** Lines 251-255. *)
Definition find_links (page : Page) (config : SiteConfig)
    : Try (list WebElement) :=
  links <~ call (driver_find_elements (product_selector config))
                (find_elements page (product_selector config)) ;;
  match links, additional_selectors config with
  | [], _ :: _ => extend_links page (additional_selectors config) links
  | _, _ => ret links
  end.

(** Lines 246-278: the body of the [try] of one task. *)
Definition scrape (page : Page) (config : SiteConfig) (brand : cell)
    (search_url : string) : Try (gset string) :=
  _ <~ call (driver_get search_url) (get page) ;;
  _ <~ call (time_sleep (page_delay settings)) (Ok tt) ;;
  _ <~ call (driver_execute_script scroll_script)
            (execute_script page scroll_script) ;;
  _ <~ call (time_sleep (scroll_delay settings)) (Ok tt) ;;
  links <~ find_links page config ;;
  lift (scan_links config brand links ∅).

(** Lines 238-241. *)
Definition formatted_term (config : SiteConfig) (search_term : string)
    : string :=
  if String.eqb (url_encoding config) "-"
  then Str.lower (Str.replace_space "-" search_term)
  else Str.replace_space (url_encoding config) search_term.

(** Lines 284-291: one row per collected link. *)
Definition append_rows (brand : cell) (keyword site_name : string)
    (unique_links : gset string) (results : list Row) : list Row :=
  fold_left
    (fun res link =>
       (res ++ [ {| Brand := brand; Keyword := keyword; Site := site_name;
                    Product_URL := link;
                    Scraped_At := now (length res) |} ])%list)
    (elements unique_links) results.

(** Lines 230-291: the body of [for site_name, config in sites.items()].
    The quotient of the two counters is the float quotient of their
    conversions, which is what Python's [/] gives below 2^53. *)
Definition run_task (total_operations : Z) (brand : cell)
    (keyword search_term : string) (st : State)
    (site : string * SiteConfig) : State * result unit :=
  let '(site_name, config) := site in
  let current := current_operation st + 1 in
  if total_operations =? 0 then
    ({| results := results st; current_operation := current;
        events := events st |}, Raise ZeroDivisionError)
  else
    let progress :=
      Float.div (Float.of_Z current) (Float.of_Z total_operations) in
    let search_url :=
      format (url_template config) (formatted_term config search_term) "1" in
    let '(evs, r) :=
      scrape (page_at driver current search_url) config brand search_url in
    let log :=
      (events st
         ++ [progress_bar_progress progress;
             status_text site_name search_term]
         ++ evs)%list in
    match r with
    | Raise e =>
        ({| results := results st; current_operation := current;
            events := (log ++ [st_warning site_name e])%list |}, Ok tt)
    | Ok unique_links =>
        ({| results :=
              append_rows brand keyword site_name unique_links (results st);
            current_operation := current;
            events := log |}, Ok tt)
    end.

(** A [for] loop whose body can raise. *)
Fixpoint for_each {A} (body : State -> A -> State * result unit)
    (l : list A) (st : State) : State * result unit :=
  match l with
  | [] => (st, Ok tt)
  | x :: rest =>
      match body st x with
      | (st', Ok _) => for_each body rest st'
      | (st', Raise e) => (st', Raise e)
      end
  end.

(** Lines 227-291: the body of [for keyword in keywords]. *)
Definition run_keyword (total_operations : Z)
    (sites : list (string * SiteConfig)) (brand : cell) (st : State)
    (keyword : string) : State * result unit :=
  let search_term := str brand ++ " " ++ keyword in
  for_each (run_task total_operations brand keyword search_term) sites st.

(** Lines 223-291: the body of [for _, row in df_input.iterrows()]. *)
Definition run_row (total_operations : Z)
    (sites : list (string * SiteConfig)) (cols : list string) (st : State)
    (row : list cell) : State * result unit :=
  match row_get cols row "Brand" with
  | None => (st, Raise (KeyError "Brand"))
  | Some brand =>
      for_each (run_keyword total_operations sites brand)
               (keywords_of cols row) st
  end.

(** Line 219. *)
Definition total_operations_of (df_input : DataFrame)
    (sites : list (string * SiteConfig)) : Z :=
  Z.of_nat (length (rows df_input))
  * Z.of_nat (length (keyword_columns (columns df_input)))
  * Z.of_nat (length sites).

Definition initial : State :=
  {| results := []; current_operation := 0; events := [] |}.

(** Lines 219-291: the loops inside the outer [try]. *)
Definition run_loops (df_input : DataFrame) : State * result unit :=
  let sites := get_site_configs (sites_config settings) in
  for_each (run_row (total_operations_of df_input sites) sites
                    (columns df_input))
           (rows df_input) initial.

(** [run_scraper(df_input, progress_bar, status_text)]: the events and
    the value returned ([None], or the rows of the result table) or the
    exception that leaves the function. *)
Definition run_scraper (df_input : DataFrame)
    : list Event * result (option (list Row)) :=
  match start driver with
  | Raise e => ([st_error e], Ok None)
  | Ok _ =>
      let '(st, r) := run_loops df_input in
      let log := (events st ++ [driver_quit])%list in
      match r with
      | Raise e => (log, Raise e)
      | Ok _ =>
          (log, Ok (match results st with
                    | [] => None
                    | _ :: _ => Some (results st)
                    end))
      end
  end.

End Scraper.

(** * Vocabulary of the properties *)

(** [sub] occurs in [s]: some text before it, some text after it. *)
Definition occurs_in (sub s : string) : Prop :=
  exists pre post : string, s = pre ++ sub ++ post.

(** A match lies inside the window [alo, ahi) of [a]. *)
Definition inside (alo ahi : nat) (m : Difflib.Match) : Prop :=
  let '(besti, bestj, bestsize) := m in
  (alo <= besti /\ besti + bestsize <= ahi)%nat.

(** Every run recorded in [j2len] is at most [n] long. *)
Definition runs_le (n : nat) (j2len : list (nat * nat)) : Prop :=
  Forall (fun p => (snd p <= n)%nat) j2len.

(** A token: not empty and without white space. *)
Fixpoint nospace (w : string) : bool :=
  match w with
  | EmptyString => true
  | String c w' => negb (Str.isspace c) && nospace w'
  end.

Definition token (w : string) : Prop := w <> EmptyString /\ nospace w = true.

(** A row of the table is sound: its site is a selected one and its URL
    holds the domain of that site's profile. *)
Definition row_sound (settings : Settings) (row : Row) : Prop :=
  exists config,
    In (Site row, config) (get_site_configs (sites_config settings))
    /\ Str.contains (domain_check config) (Product_URL row) = true.

Definition Zsum (l : list Z) : Z := fold_right Z.add 0 l.

(** The tasks a row gives rise to: one per keyword it has and per site. *)
Definition tasks_of_row (sites : list (string * SiteConfig))
    (cols : list string) (row : list cell) : Z :=
  Z.of_nat (length (keywords_of cols row)) * Z.of_nat (length sites).

(** The fractions handed to [progress_bar.progress], in order. *)
Definition progress_reports (evs : list Event) : list spec_float :=
  flat_map (fun ev => match ev with
                      | progress_bar_progress p => [p]
                      | _ => []
                      end) evs.

(** ** Events *)

Definition is_get (ev : Event) : bool :=
  match ev with
  | driver_get _ => true
  | _ => false
  end.

(** The pages loaded: the calls of [driver.get]. *)
Definition page_loads (evs : list Event) : Z :=
  Z.of_nat (length (List.filter is_get evs)).

(** What a task does on its page after [driver.get]. *)
Definition on_page (ev : Event) : bool :=
  match ev with
  | time_sleep _ | driver_execute_script _ | driver_find_elements _ => true
  | _ => false
  end.


(** The events one task adds to the log, the denominator not being zero:
    the progress report, the status line, the page load, what is done on
    the page, and the warning if the task failed. *)
Definition task_events (total current : Z) (site_name term url : string)
    (new : list Event) : Prop :=
  exists rest tail,
    new = (progress_bar_progress
             (Float.div (Float.of_Z current) (Float.of_Z total))
           :: status_text site_name term :: driver_get url :: rest ++ tail)%list
    /\ forallb on_page rest = true
    /\ (tail = [] \/ exists e, tail = [st_warning site_name e]).

(** A row of the result table comes from a row of the input table: its
    brand is that row's Brand cell and its keyword one of that row's. *)
Definition row_from (df : DataFrame) (r : Row) : Prop :=
  exists row,
    In row (rows df)
    /\ row_get (columns df) row "Brand" = Some (Brand r)
    /\ In (Keyword r) (keywords_of (columns df) row).

(** The selectors a task may query on a site. *)
Definition selectors_of (config : SiteConfig) : list string :=
  product_selector config :: additional_selectors config.

(** [c in s] for a character [c]. *)
Fixpoint has_char (c : ascii) (s : string) : bool :=
  match s with
  | EmptyString => false
  | String d s' => Ascii.eqb c d || has_char c s'
  end.

(** * A small world to run the scraper in *)

Module Demo.

(** An anchor with an href and a visible text, no title and no alt. *)
Definition anchor (href txt : string) : WebElement :=
  {| get_attribute := fun name =>
       if String.eqb name "href" then Ok (Some href) else Ok None;
     text := Ok txt |}.

(** An element that went stale: reading it raises. *)
Definition stale : WebElement :=
  {| get_attribute := fun _ =>
       Raise (WebDriverException "stale element reference");
     text := Raise (WebDriverException "stale element reference") |}.

(** The site of the scenarios of the specification. *)
Definition x_test : SiteConfig :=
  {| url_template := [Lit "https://x.test/search?q="; SearchTerm];
     url_encoding := "+";
     product_selector := "a";
     brand_in_url := false;
     domain_check := "x.test";
     additional_selectors := [] |}.

Definition acme_boots_href : string :=
  "https://www.alibaba.com/product-detail/ACME-boots_1.html".
Definition acme_boots : WebElement := anchor acme_boots_href "Boots".
Definition deluxe : WebElement :=
  anchor "https://www.dhgate.com/product/1" "Acme Shoes Deluxe".
Definition globex : WebElement :=
  anchor "https://www.dhgate.com/product/2" "Globex Shoes".
Definition elsewhere : WebElement :=
  anchor "https://evil.example/product/3" "Acme Shoes".
Definition akme : WebElement :=
  anchor "https://www.dhgate.com/product/4" "Best Acmee sneakers".

(** A results page: the product selector finds four anchors. *)
Definition catalog : Page :=
  {| get := Ok tt;
     execute_script := fun _ => Ok tt;
     find_elements := fun selector =>
       if String.eqb selector (product_selector dhgate)
       then Ok [deluxe; globex; elsewhere; akme]
       else Ok [] |}.

(** A page where only the fallback selectors find something. *)
Definition fallback_page : Page :=
  {| get := Ok tt;
     execute_script := fun _ => Ok tt;
     find_elements := fun selector =>
       if String.eqb selector ".item-link a"
       then Ok [anchor "https://www.made-in-china.com/prod/1" "Acme one"]
       else if String.eqb selector ".product-item a"
       then Ok [anchor "https://www.made-in-china.com/prod/2" "Acme two"]
       else Ok [] |}.

(** A page that does not load. *)
Definition offline : Page :=
  {| get := Raise (WebDriverException "net::ERR_NAME_NOT_RESOLVED");
     execute_script := fun _ => Ok tt;
     find_elements := fun _ => Ok [] |}.

(** The page of the scenarios: one link, with the given text. *)
Definition one_link (txt : string) : Page :=
  {| get := Ok tt;
     execute_script := fun _ => Ok tt;
     find_elements := fun _ => Ok [anchor "https://x.test/item/1" txt] |}.

Definition two_links : Page :=
  {| get := Ok tt;
     execute_script := fun _ => Ok tt;
     find_elements := fun _ =>
       Ok [anchor "https://x.test/item/1" "Acme Shoes Deluxe";
           anchor "https://x.test/item/2" "Acme Shoes Classic"] |}.

Definition chrome (page : Page) : WebDriver :=
  {| start := Ok tt; page_at := fun _ _ => page |}.

(** A browser whose first page does not load. *)
Definition flaky : WebDriver :=
  {| start := Ok tt;
     page_at := fun n _ => if n =? 1 then offline else catalog |}.

Definition clock (n : nat) : string := "2024-05-01 12:00:00".

Definition only_dhgate : gmap string bool :=
  {[ "Alibaba" := false; "DHgate" := true; "Made-in-China" := false ]}.

Definition fuzzy_on : Settings :=
  {| sites_config := only_dhgate;
     fuzzy_enabled := true; fuzzy_threshold := 80;
     max_links_per_site := 12; scroll_delay := 3; page_delay := 5 |}.

Definition fuzzy_off : Settings :=
  {| sites_config := only_dhgate;
     fuzzy_enabled := false; fuzzy_threshold := 100;
     max_links_per_site := 12; scroll_delay := 3; page_delay := 5 |}.

Definition cap_one : Settings :=
  {| sites_config := only_dhgate;
     fuzzy_enabled := true; fuzzy_threshold := 80;
     max_links_per_site := 1; scroll_delay := 3; page_delay := 5 |}.

(** One brand with a keyword under each keyword column. *)
Definition full_table : DataFrame :=
  {| columns := ["Brand"; "Keyword1"; "Keyword2"];
     rows := [[Text "Acme"; Text "shoes"; Text "boots"]] |}.

(** One brand whose second keyword cell is missing. *)
Definition gappy_table : DataFrame :=
  {| columns := ["Brand"; "Keyword1"; "Keyword2"];
     rows := [[Text "Acme"; Text "shoes"; NaN]] |}.

Definition no_brands : DataFrame :=
  {| columns := ["Brand"; "Keyword1"]; rows := [] |}.

(** The result table of the run on [full_table]. *)
Definition full_result : list Row :=
  Eval vm_compute in
    match snd (run_scraper (SM := Difflib.matcher) (chrome catalog) clock
                 fuzzy_on full_table) with
    | Ok (Some table) => table
    | _ => []
    end.

(** A table without a Brand column. *)
Definition no_brand_table : DataFrame :=
  {| columns := ["Name"; "Keyword1"];
     rows := [[Text "Acme"; Text "shoes"]] |}.

(** What the task on [Demo.catalog] collects for the brand Acme. *)
Definition collected : gset string :=
  {[ "https://www.dhgate.com/product/1"; "https://www.dhgate.com/product/4" ]}.

End Demo.

(** * Properties *)

(** ** Strings *)

Lemma prefix_true_iff (sub s : string) :
  String.prefix sub s = true <-> exists post, s = sub ++ post.
Proof.
  revert s. induction sub as [|c sub IH]; intros s; simpl.
  - split; [intros _; exists s; reflexivity | destruct s; reflexivity].
  - destruct s as [|d s]; simpl.
    + split; [discriminate | intros [post H]; discriminate].
    + destruct (ascii_dec c d) as [->|Hne].
      * rewrite IH. split; intros [post H]; exists post.
        -- now rewrite H.
        -- now inversion H.
      * split; [discriminate | intros [post H]; inversion H; congruence].
Qed.

Lemma contains_step (sub s : string) :
  Str.contains sub s
  = String.prefix sub s
    || match s with
       | EmptyString => false
       | String _ s' => Str.contains sub s'
       end.
Proof.
  destruct s; cbn [Str.contains]; destruct (String.prefix sub _); reflexivity.
Qed.

Lemma contains_true_iff (sub s : string) :
  Str.contains sub s = true <-> occurs_in sub s.
Proof.
  unfold occurs_in. induction s as [|d s IH];
    rewrite contains_step, orb_true_iff, prefix_true_iff.
  - split.
    + intros [[post H] | H]; [|discriminate].
      exists EmptyString, post. exact H.
    + intros [pre [post H]]. left.
      destruct pre; [|discriminate]. exists post. exact H.
  - rewrite IH. split.
    + intros [[post H] | [pre [post H]]].
      * exists EmptyString, post. exact H.
      * exists (String d pre), post. simpl. now rewrite H.
    + intros [pre [post H]]. destruct pre as [|c pre]; simpl in H.
      * left. eauto.
      * right. inversion H. eauto.
Qed.

(** [split]: white space is skipped, a token followed by white space is
    cut there, and a token at the end is the last one. *)

Lemma append_snoc (cur w : string) (c : ascii) :
  (cur ++ String c EmptyString) ++ w = cur ++ String c w.
Proof.
  induction cur as [|d cur IH]; [reflexivity|].
  change (String d ((cur ++ String c EmptyString) ++ w)
          = String d (cur ++ String c w)).
  now rewrite IH.
Qed.

Lemma append_empty_r (cur : string) : cur ++ EmptyString = cur.
Proof.
  induction cur as [|d cur IH]; [reflexivity|].
  change (String d (cur ++ EmptyString) = String d cur). now rewrite IH.
Qed.

Lemma split_from_token (cur w rest : string) :
  nospace w = true ->
  Str.split_from cur (w ++ rest) = Str.split_from (cur ++ w) rest.
Proof.
  revert cur. induction w as [|c w IH]; intros cur Hw; simpl.
  - now rewrite append_empty_r.
  - simpl in Hw. apply andb_true_iff in Hw as [Hc Hw].
    apply negb_true_iff in Hc. rewrite Hc, IH by exact Hw.
    f_equal. apply append_snoc.
Qed.

Lemma split_skip (c : ascii) (s : string) :
  Str.isspace c = true -> Str.split (String c s) = Str.split s.
Proof. intros Hc. unfold Str.split. simpl. now rewrite Hc. Qed.

Lemma split_token (w : string) (c : ascii) (s : string) :
  token w -> Str.isspace c = true ->
  Str.split (w ++ String c s) = w :: Str.split s.
Proof.
  intros [Hne Hw] Hc. unfold Str.split.
  rewrite split_from_token by exact Hw.
  change (EmptyString ++ w) with w. cbn [Str.split_from]. rewrite Hc.
  destruct (String.eqb_spec w EmptyString); [contradiction | reflexivity].
Qed.

Lemma split_last_token (w : string) : token w -> Str.split w = [w].
Proof.
  intros [Hne Hw]. unfold Str.split.
  rewrite <- (append_empty_r w) at 1.
  rewrite split_from_token by exact Hw.
  change (EmptyString ++ w) with w. cbn [Str.split_from].
  destruct (String.eqb_spec w EmptyString); [contradiction | reflexivity].
Qed.

(** ** Floats *)

Lemma ge_Z_antitone (x : spec_float) (t t' : Z) :
  t' <= t -> Float.ge_Z x t = true -> Float.ge_Z x t' = true.
Proof.
  intros Hle. destruct x as [s|s| |s m e]; simpl; try easy.
  - rewrite !Z.leb_le. lia.
  - destruct (0 <=? e) eqn:He; rewrite !Z.leb_le; [lia|].
    intros H. apply Z.leb_gt in He.
    assert (0 <= 2 ^ (- e)) by (apply Z.pow_nonneg; lia).
    assert (t' * 2 ^ (- e) <= t * 2 ^ (- e))
      by (apply Z.mul_le_mono_nonneg_r; assumption).
    lia.
Qed.

(** ** difflib: the recursion ends within its fuel *)

Section DifflibFacts.
Variables a b : list ascii.
Variables alo ahi blo bhi : nat.

Lemma j2len_get_le n j2len j :
  runs_le n j2len -> (Difflib.j2len_get j2len j <= n)%nat.
Proof.
  intros H. unfold Difflib.j2len_get.
  destruct (List.find _ j2len) as [p|] eqn:Hfind; [|lia].
  apply find_some in Hfind as [Hin _].
  unfold runs_le in H. rewrite List.Forall_forall in H. apply H. exact Hin.
Qed.

Lemma step_j_inside i j2len acc j :
  (alo <= i < ahi)%nat ->
  runs_le (i - alo) j2len ->
  runs_le (i + 1 - alo) (fst acc) -> inside alo ahi (snd acc) ->
  runs_le (i + 1 - alo) (fst (Difflib.step_j blo i j2len acc j))
  /\ inside alo ahi (snd (Difflib.step_j blo i j2len acc j)).
Proof.
  intros Hi Hold Hnew Hbest. unfold Difflib.step_j.
  destruct acc as [newj2len [[besti bestj] bestsize]]. simpl in Hnew, Hbest.
  destruct (j <? blo)%nat; [split; assumption|].
  assert (match j with
          | O => 0
          | S j' => Difflib.j2len_get j2len j'
          end <= i - alo)%nat as Hk.
  { destruct j; [lia | apply j2len_get_le; exact Hold]. }
  set (k := (match j with
             | O => 0
             | S j' => Difflib.j2len_get j2len j'
             end + 1)%nat) in *.
  assert (k <= i + 1 - alo)%nat as Hk' by (unfold k; lia).
  split; simpl.
  - constructor; [exact Hk' | exact Hnew].
  - destruct (bestsize <? k)%nat; simpl; [lia | exact Hbest].
Qed.

Lemma step_i_inside i acc :
  (alo <= i < ahi)%nat ->
  runs_le (i - alo) (fst acc) -> inside alo ahi (snd acc) ->
  runs_le (i + 1 - alo) (fst (Difflib.step_i a b blo bhi acc i))
  /\ inside alo ahi (snd (Difflib.step_i a b blo bhi acc i)).
Proof.
  intros Hi Hold Hbest. unfold Difflib.step_i.
  destruct acc as [j2len best]. simpl in Hold, Hbest.
  generalize (List.filter (fun j => (j <? bhi)%nat)
                (Difflib.b2j b (Difflib.at_ a i))).
  intros js.
  assert (runs_le (i + 1 - alo) (fst (([] : list (nat * nat)), best))
          /\ inside alo ahi (snd (([] : list (nat * nat)), best))) as Hacc.
  { split; [constructor | exact Hbest]. }
  revert Hacc. generalize (([] : list (nat * nat)), best).
  induction js as [|j js IH]; intros acc Hacc; simpl; [exact Hacc|].
  apply IH. destruct Hacc. apply step_j_inside; assumption.
Qed.

Lemma fold_step_i_inside n i acc :
  (alo <= i)%nat -> (i + n <= ahi)%nat ->
  runs_le (i - alo) (fst acc) -> inside alo ahi (snd acc) ->
  inside alo ahi
    (snd (fold_left (Difflib.step_i a b blo bhi) (seq i n) acc)).
Proof.
  revert i acc. induction n as [|n IH]; intros i acc Hlo Hhi Hruns Hbest;
    simpl; [exact Hbest|].
  destruct (step_i_inside i acc) as [Hruns' Hbest']; try assumption; [lia|].
  apply IH; try lia; [|exact Hbest'].
  replace (S i - alo)%nat with (i + 1 - alo)%nat by lia. exact Hruns'.
Qed.

Lemma extend_left_inside fuel m :
  inside alo ahi m ->
  inside alo ahi (Difflib.extend_left a b alo blo fuel m).
Proof.
  revert m. induction fuel as [|fuel IH]; intros [[besti bestj] bestsize] Hm;
    simpl; [exact Hm|].
  destruct ((alo <? besti)%nat && (blo <? bestj)%nat
            && Ascii.eqb (Difflib.at_ a (besti - 1))
                         (Difflib.at_ b (bestj - 1))) eqn:Hgo; [|exact Hm].
  apply IH. apply andb_true_iff in Hgo as [Hgo _].
  apply andb_true_iff in Hgo as [Hgo _]. apply Nat.ltb_lt in Hgo.
  simpl in *. lia.
Qed.

Lemma extend_right_inside fuel m :
  inside alo ahi m ->
  inside alo ahi (Difflib.extend_right a b ahi bhi fuel m).
Proof.
  revert m. induction fuel as [|fuel IH]; intros [[besti bestj] bestsize] Hm;
    simpl; [exact Hm|].
  destruct ((besti + bestsize <? ahi)%nat && (bestj + bestsize <? bhi)%nat
            && Ascii.eqb (Difflib.at_ a (besti + bestsize))
                         (Difflib.at_ b (bestj + bestsize))) eqn:Hgo;
    [|exact Hm].
  apply IH. apply andb_true_iff in Hgo as [Hgo _].
  apply andb_true_iff in Hgo as [Hgo _]. apply Nat.ltb_lt in Hgo.
  simpl in *. lia.
Qed.

(** The two loops that widen a match end within their fuel. *)
Lemma extend_left_fuel n n' m :
  (fst (fst m) - alo <= n)%nat -> (fst (fst m) - alo <= n')%nat ->
  Difflib.extend_left a b alo blo n m = Difflib.extend_left a b alo blo n' m.
Proof.
  revert n' m. induction n as [|n IH];
    intros n' [[besti bestj] bestsize] Hn Hn'; simpl in Hn, Hn'.
  - destruct n' as [|n']; [reflexivity|]. simpl.
    replace (alo <? besti)%nat with false; [reflexivity|].
    symmetry. apply Nat.ltb_ge. lia.
  - destruct n' as [|n']; simpl.
    + replace (alo <? besti)%nat with false; [reflexivity|].
      symmetry. apply Nat.ltb_ge. lia.
    + destruct ((alo <? besti)%nat && (blo <? bestj)%nat
                && Ascii.eqb (Difflib.at_ a (besti - 1))
                             (Difflib.at_ b (bestj - 1))); [|reflexivity].
      apply IH; simpl; lia.
Qed.

Lemma extend_right_fuel n n' m :
  (ahi - (fst (fst m) + snd m) <= n)%nat ->
  (ahi - (fst (fst m) + snd m) <= n')%nat ->
  Difflib.extend_right a b ahi bhi n m = Difflib.extend_right a b ahi bhi n' m.
Proof.
  revert n' m. induction n as [|n IH];
    intros n' [[besti bestj] bestsize] Hn Hn'; simpl in Hn, Hn'.
  - destruct n' as [|n']; [reflexivity|]. simpl.
    replace (besti + bestsize <? ahi)%nat with false; [reflexivity|].
    symmetry. apply Nat.ltb_ge. lia.
  - destruct n' as [|n']; simpl.
    + replace (besti + bestsize <? ahi)%nat with false; [reflexivity|].
      symmetry. apply Nat.ltb_ge. lia.
    + destruct ((besti + bestsize <? ahi)%nat && (bestj + bestsize <? bhi)%nat
                && Ascii.eqb (Difflib.at_ a (besti + bestsize))
                             (Difflib.at_ b (bestj + bestsize)));
        [|reflexivity].
      apply IH; simpl; lia.
Qed.

Lemma find_longest_match_inside :
  (alo <= ahi)%nat ->
  inside alo ahi (Difflib.find_longest_match a b alo ahi blo bhi).
Proof.
  intros H. unfold Difflib.find_longest_match.
  apply extend_right_inside, extend_left_inside, fold_step_i_inside;
    simpl; try lia. constructor.
Qed.

End DifflibFacts.

(** More fuel than the window of [a] is long changes nothing. *)
Lemma matched_fuel (a b : list ascii) (n m alo ahi blo bhi : nat) :
  (alo <= ahi)%nat -> (ahi - alo < n)%nat -> (ahi - alo < m)%nat ->
  Difflib.matched a b n alo ahi blo bhi
  = Difflib.matched a b m alo ahi blo bhi.
Proof.
  revert m alo ahi blo bhi.
  induction n as [|n IH]; intros m alo ahi blo bhi Hle Hn Hm; [lia|].
  destruct m as [|m]; [lia|]. simpl.
  pose proof (find_longest_match_inside a b alo ahi blo bhi Hle) as Hin.
  destruct (Difflib.find_longest_match a b alo ahi blo bhi) as [[i j] k].
  simpl in Hin. destruct (k =? 0)%nat eqn:Hk; [reflexivity|].
  apply Nat.eqb_neq in Hk.
  f_equal; [f_equal|].
  - destruct ((alo <? i)%nat && (blo <? j)%nat); [|reflexivity].
    apply IH; lia.
  - destruct ((i + k <? ahi)%nat && (j + k <? bhi)%nat) eqn:Hgo;
      [|reflexivity].
    apply IH; lia.
Qed.

(** [matches] does not depend on the fuel it is given. *)
Lemma matches_fuel (a b : list ascii) (n : nat) :
  (length a < n)%nat ->
  Difflib.matched a b n 0 (length a) 0 (length b) = Difflib.matches a b.
Proof.
  intros H. unfold Difflib.matches. apply matched_fuel; lia.
Qed.

(** ** The fuzzy matcher *)

Section MatcherFacts.
Context {SM : SequenceMatcher}.

Lemma scan_words_step b t w ws :
  scan_words b t (w :: ws) = qualifies b t w || scan_words b t ws.
Proof.
  unfold qualifies. simpl.
  destruct (3 <=? Str.len w); [|reflexivity].
  destruct (similar b w t); reflexivity.
Qed.

Lemma scan_words_true_iff b t ws :
  scan_words b t ws = true <->
  exists w, In w ws /\ qualifies b t w = true.
Proof.
  induction ws as [|w ws IH].
  - simpl. split; [discriminate | intros [w [[] _]]].
  - rewrite scan_words_step, orb_true_iff, IH. split.
    + intros [H | [v [Hin Hv]]]; [exists w | exists v]; simpl; auto.
    + intros [v [[<- | Hin] Hv]]; [left | right]; eauto.
Qed.

Lemma scan_words_calls_result b t ws :
  snd (scan_words_calls b t ws) = scan_words b t ws.
Proof.
  induction ws as [|w ws IH]; simpl; [reflexivity|].
  destruct (3 <=? Str.len w); [|exact IH].
  destruct (similar b w t); [reflexivity|].
  destruct (scan_words_calls b t ws). exact IH.
Qed.

Lemma scan_words_calls_stop b t pre w post :
  (forall v, In v pre -> qualifies b t v = false) ->
  qualifies b t w = true ->
  scan_words_calls b t (pre ++ w :: post)%list
  = ((List.filter (fun v => 3 <=? Str.len v) pre ++ [w])%list, true).
Proof.
  intros Hpre Hw. induction pre as [|v pre IH]; simpl.
  - unfold qualifies in Hw. apply andb_true_iff in Hw as [-> ->].
    reflexivity.
  - assert (qualifies b t v = false) as Hv by (apply Hpre; now left).
    rewrite IH by (intros; apply Hpre; now right).
    unfold qualifies in Hv.
    destruct (3 <=? Str.len v); simpl in *; [|reflexivity].
    rewrite Hv. reflexivity.
Qed.

Lemma scan_words_antitone b t t' ws :
  t' <= t -> scan_words b t ws = true -> scan_words b t' ws = true.
Proof.
  intros Hle. rewrite !scan_words_true_iff.
  intros [w [Hin Hw]]. exists w. split; [exact Hin|].
  unfold qualifies, similar in *.
  apply andb_true_iff in Hw as [-> Hs]. simpl.
  eapply ge_Z_antitone; eassumption.
Qed.

End MatcherFacts.

(** C3: a brand that occurs in the text, case aside, is matched at every
    threshold, with fuzzy matching on or off. *)
Theorem fuzzy_match_brand_literal `{SM : SequenceMatcher}
    (enabled : bool) (text brand : string) (t : Z) :
  occurs_in (Str.lower brand) (Str.lower text) ->
  fuzzy_match_brand enabled text brand t = true.
Proof.
  intros H. apply contains_true_iff in H.
  unfold fuzzy_match_brand. destruct enabled; simpl; now rewrite H.
Qed.

(** C4: with fuzzy matching off, the answer is true exactly when the
    lowercased brand occurs in the lowercased text, at every threshold. *)
Theorem fuzzy_match_brand_disabled `{SM : SequenceMatcher}
    (text brand : string) (t : Z) :
  fuzzy_match_brand false text brand t = true
  <-> occurs_in (Str.lower brand) (Str.lower text).
Proof.
  unfold fuzzy_match_brand. simpl. apply contains_true_iff.
Qed.

(** C5: with fuzzy matching on and the lowercased brand absent from the
    lowercased text, the answer is true exactly when some token of the
    lowercased text of length 3 or more has a ratio against the lowercased
    brand with ratio * 100 >= threshold; and the scan hands to
    SequenceMatcher the tokens of length 3 or more up to the first such
    token, that token last, and none after it. *)
Theorem fuzzy_match_brand_tokens `{SM : SequenceMatcher}
    (text brand : string) (t : Z) :
  ~ occurs_in (Str.lower brand) (Str.lower text) ->
  (fuzzy_match_brand true text brand t = true <->
   exists word, In word (Str.split (Str.lower text))
                /\ 3 <= Str.len word
                /\ Float.ge_Z (Float.mul (ratio (Str.lower brand) word)
                                         (Float.of_Z 100)) t = true)
  /\ snd (scan_words_calls (Str.lower brand) t (Str.split (Str.lower text)))
     = fuzzy_match_brand true text brand t
  /\ (forall pre word post,
        Str.split (Str.lower text) = (pre ++ word :: post)%list ->
        (forall v, In v pre -> qualifies (Str.lower brand) t v = false) ->
        qualifies (Str.lower brand) t word = true ->
        scan_words_calls (Str.lower brand) t (Str.split (Str.lower text))
        = ((List.filter (fun v => 3 <=? Str.len v) pre ++ [word])%list,
           true)).
Proof.
  intros Hno.
  assert (Str.contains (Str.lower brand) (Str.lower text) = false) as Hc.
  { destruct (Str.contains _ _) eqn:E; [|reflexivity].
    apply contains_true_iff in E. contradiction. }
  split; [|split].
  - unfold fuzzy_match_brand. simpl. rewrite Hc, scan_words_true_iff.
    split; intros [w [Hin Hw]]; exists w; (split; [exact Hin|]).
    + apply andb_true_iff in Hw as [Hlen Hs]. apply Z.leb_le in Hlen.
      split; assumption.
    + destruct Hw as [Hlen Hs]. apply andb_true_iff.
      split; [apply Z.leb_le|]; assumption.
  - unfold fuzzy_match_brand. simpl. rewrite Hc.
    apply scan_words_calls_result.
  - intros pre word post -> Hpre Hw.
    apply scan_words_calls_stop; assumption.
Qed.

(** C10: with fuzzy matching on, a match at threshold [t] is a match at
    every threshold below [t]. *)
Theorem fuzzy_match_brand_antitone `{SM : SequenceMatcher}
    (text brand : string) (t t' : Z) :
  t' <= t ->
  fuzzy_match_brand true text brand t = true ->
  fuzzy_match_brand true text brand t' = true.
Proof.
  intros Hle. unfold fuzzy_match_brand. simpl.
  destruct (Str.contains _ _); [reflexivity|].
  apply scan_words_antitone. exact Hle.
Qed.

(** ** The link loop *)

Section ScraperFacts.
Context {SM : SequenceMatcher}.
Variable driver : WebDriver.
Variable now : nat -> string.
Variable settings : Settings.

Lemma size_add_le (u : gset string) (h : string) :
  (size (u ∪ {[ h ]}) <= S (size u))%nat.
Proof.
  rewrite size_union_alt.
  assert (size (({[ h ]} : gset string) ∖ u) <= 1)%nat.
  { rewrite <- (size_singleton (C := gset string) h).
    apply subseteq_size. intros x [Hx _]%elem_of_difference. exact Hx. }
  lia.
Qed.

(** Below the cap on entry, the loop ends at the cap or below. *)
Lemma scan_links_size config brand links (u s : gset string) :
  Z.of_nat (size u) < max_links_per_site settings ->
  scan_links settings config brand links u = Ok s ->
  Z.of_nat (size s) <= max_links_per_site settings.
Proof.
  revert u. induction links as [|link rest IH]; intros u Hu; simpl.
  - intros [= <-]. lia.
  - destruct (get_attribute link "href") as [[h|]|e]; simpl;
      [ | apply IH; exact Hu | discriminate ].
    destruct (negb (String.eqb h EmptyString)
              && Str.contains (domain_check config) h);
      [ | apply IH; exact Hu ].
    destruct (should_add settings config brand link h) as [add|e]; simpl;
      [ | discriminate ].
    pose proof (size_add_le u h) as Hadd.
    destruct add.
    + destruct (max_links_per_site settings <=? _) eqn:Hcap.
      * intros [= <-]. lia.
      * apply IH. apply Z.leb_gt in Hcap. exact Hcap.
    + destruct (max_links_per_site settings <=? _) eqn:Hcap.
      * intros [= <-]. lia.
      * apply IH. exact Hu.
Qed.

(** Every collected link passed the domain check. *)
Lemma scan_links_domain config brand links (u s : gset string) :
  (forall h, h ∈ u -> Str.contains (domain_check config) h = true) ->
  scan_links settings config brand links u = Ok s ->
  forall h, h ∈ s -> Str.contains (domain_check config) h = true.
Proof.
  revert u. induction links as [|link rest IH]; intros u Hu; simpl.
  - intros [= <-]. exact Hu.
  - destruct (get_attribute link "href") as [[h|]|e]; simpl;
      [ | apply IH; exact Hu | discriminate ].
    destruct (negb (String.eqb h EmptyString)
              && Str.contains (domain_check config) h) eqn:Hdom;
      [ | apply IH; exact Hu ].
    apply andb_true_iff in Hdom as [_ Hdom].
    destruct (should_add settings config brand link h) as [add|e]; simpl;
      [ | discriminate ].
    assert (forall h', h' ∈ (if add then u ∪ {[ h ]} else u) ->
                       Str.contains (domain_check config) h' = true) as Hu'.
    { destruct add; [|exact Hu].
      intros h' [Hin | ->%elem_of_singleton]%elem_of_union; auto. }
    destruct (max_links_per_site settings <=? _).
    + intros [= <-]. exact Hu'.
    + apply IH. exact Hu'.
Qed.

(** The rows a task appends: one per collected link, all of its site. *)
Lemma append_rows_spec brand keyword site_name (s : gset string) res :
  exists rows,
    append_rows now brand keyword site_name s res = (res ++ rows)%list
    /\ length rows = size s
    /\ forall row, In row rows ->
         Site row = site_name /\ Product_URL row ∈ s.
Proof.
  unfold append_rows.
  assert (forall l res,
    exists rows,
      fold_left
        (fun res0 link =>
           (res0 ++ [ {| Brand := brand; Keyword := keyword;
                         Site := site_name; Product_URL := link;
                         Scraped_At := now (length res0) |} ])%list)
        l res = (res ++ rows)%list
      /\ length rows = length l
      /\ forall row, In row rows ->
           Site row = site_name /\ In (Product_URL row) l) as Hfold.
  { clear. intros l. induction l as [|x l IH]; intros res; simpl.
    - exists []. rewrite app_nil_r.
      split; [reflexivity|]. split; [reflexivity|]. intros ? [].
    - destruct (IH (res ++ [ {| Brand := brand; Keyword := keyword;
                                 Site := site_name; Product_URL := x;
                                 Scraped_At := now (length res) |} ])%list)
        as [rows [Heq [Hlen Hrows]]].
      eexists (_ :: rows). rewrite Heq, <- app_assoc. simpl.
      split; [reflexivity|]. split; [now rewrite Hlen|].
      intros row [<- | Hin]; simpl; [auto|].
      destruct (Hrows row Hin). auto. }
  destruct (Hfold (elements s) res) as [rows [Heq [Hlen Hrows]]].
  exists rows. split; [exact Heq|]. split; [exact Hlen|].
  intros row Hin. destruct (Hrows row Hin) as [Hs Hu].
  split; [exact Hs|]. apply elem_of_elements, list_elem_of_In. exact Hu.
Qed.

(** ** Loops *)

Lemma for_each_invariant {A} (P : State -> Prop)
    (body : State -> A -> State * result unit) (l : list A) (st : State) :
  (forall st0 x, In x l -> P st0 -> P (fst (body st0 x))) ->
  P st -> P (fst (for_each body l st)).
Proof.
  revert st. induction l as [|x l IH]; intros st Hbody Hst; simpl.
  - exact Hst.
  - specialize (Hbody st x (or_introl eq_refl) Hst) as Hx.
    destruct (body st x) as [st' [[]|e]]; simpl in *.
    + apply IH; [|exact Hx]. intros. apply Hbody; [now right | assumption].
    + exact Hx.
Qed.

Lemma for_each_raise {A}
    (body : State -> A -> State * result unit) (l : list A) (st : State) e :
  snd (for_each body l st) = Raise e ->
  exists x st0, In x l /\ snd (body st0 x) = Raise e.
Proof.
  revert st. induction l as [|x l IH]; intros st; simpl.
  - discriminate.
  - destruct (body st x) as [st' [[]|e']] eqn:Hb; simpl.
    + intros H. destruct (IH _ H) as [y [st0 [Hin Hy]]].
      exists y, st0. auto.
    + intros [= ->]. exists x, st. rewrite Hb. auto.
Qed.

(** ** One task *)

(** A task that ends well ends with what the link loop collected from
    some list of links, starting from the empty set. *)
Lemma scrape_ok page config brand url (s : gset string) :
  snd (scrape settings page config brand url) = Ok s ->
  exists links, scan_links settings config brand links ∅ = Ok s.
Proof.
  unfold scrape, and_then, call, lift.
  destruct (get page); simpl; [|discriminate].
  destruct (execute_script page scroll_script); simpl; [|discriminate].
  destruct (find_links page config) as [evs [links|e]]; simpl;
    [|discriminate].
  intros H. exists links. exact H.
Qed.

(** What a task adds to the result table. *)
Lemma run_task_rows total brand keyword term st site_name config :
  exists rows,
    results (fst (run_task driver now settings total brand keyword term st
                    (site_name, config)))
    = (results st ++ rows)%list
    /\ (1 <= max_links_per_site settings ->
        Z.of_nat (length rows) <= max_links_per_site settings)
    /\ forall row, In row rows ->
         Site row = site_name
         /\ Str.contains (domain_check config) (Product_URL row) = true.
Proof.
  unfold run_task.
  destruct (total =? 0).
  { exists []. simpl. rewrite app_nil_r.
    split; [reflexivity|]. split; [lia|]. intros ? []. }
  set (url := format (url_template config) (formatted_term config term) "1").
  set (page := page_at driver (current_operation st + 1) url).
  destruct (scrape settings page config brand url) as [evs [s|e]] eqn:Hs;
    simpl.
  - destruct (append_rows_spec brand keyword site_name s (results st))
      as [rows [Heq [Hlen Hrows]]].
    assert (snd (scrape settings page config brand url) = Ok s) as Hok
      by now rewrite Hs.
    destruct (scrape_ok _ _ _ _ _ Hok) as [links Hlinks].
    exists rows. split; [exact Heq|]. split.
    + intros Hcap. rewrite Hlen.
      eapply scan_links_size; [|exact Hlinks].
      rewrite size_empty. lia.
    + intros row Hin. destruct (Hrows row Hin) as [Hsite Hurl].
      split; [exact Hsite|].
      eapply scan_links_domain; [|exact Hlinks|exact Hurl].
      intros h Hh. apply not_elem_of_empty in Hh. contradiction.
  - exists []. rewrite app_nil_r.
    split; [reflexivity|]. split; [simpl; lia|]. intros ? [].
Qed.

(** With a denominator that is not zero, a task never raises. *)
Lemma run_task_no_raise total brand keyword term st site :
  total <> 0 ->
  snd (run_task driver now settings total brand keyword term st site)
  = Ok tt.
Proof.
  intros Htotal. unfold run_task. destruct site as [site_name config].
  apply Z.eqb_neq in Htotal. rewrite Htotal.
  destruct (scrape _ _ _ _ _) as [evs [s|e]]; reflexivity.
Qed.

(** ** The whole run *)

Lemma get_site_configs_In cfg site_name config :
  In (site_name, config) (get_site_configs cfg) <->
  In (site_name, config) all_configs /\ site_enabled cfg site_name = true.
Proof. unfold get_site_configs. apply filter_In. Qed.

Lemma run_task_sound total brand keyword term sites st site :
  In site sites ->
  sites = get_site_configs (sites_config settings) ->
  Forall (row_sound settings) (results st) ->
  Forall (row_sound settings)
    (results (fst (run_task driver now settings total brand keyword term
                     st site))).
Proof.
  intros Hin -> Hst. destruct site as [site_name config].
  destruct (run_task_rows total brand keyword term st site_name config)
    as [rows [-> [_ Hrows]]].
  apply Forall_app. split; [exact Hst|].
  apply List.Forall_forall. intros row Hrow.
  destruct (Hrows row Hrow) as [Hsite Hurl].
  exists config. rewrite Hsite. auto.
Qed.

Lemma run_loops_sound df :
  Forall (row_sound settings)
    (results (fst (run_loops driver now settings df))).
Proof.
  unfold run_loops.
  apply (for_each_invariant
           (fun st => Forall (row_sound settings) (results st)));
    [|constructor].
  intros st row _ Hst. unfold run_row.
  destruct (row_get (columns df) row "Brand") as [brand|]; [|exact Hst].
  apply (for_each_invariant
           (fun st => Forall (row_sound settings) (results st)));
    [|exact Hst].
  intros st1 keyword _ Hst1. unfold run_keyword.
  apply (for_each_invariant
           (fun st => Forall (row_sound settings) (results st)));
    [|exact Hst1].
  intros st2 site Hsite Hst2.
  eapply run_task_sound; [exact Hsite|reflexivity|exact Hst2].
Qed.

Lemma keywords_of_columns cols row keyword :
  In keyword (keywords_of cols row) -> keyword_columns cols <> [].
Proof.
  revert row. induction cols as [|col cols IH]; intros row; simpl.
  - intros [].
  - destruct row as [|x row]; [intros []|].
    unfold keyword_columns. simpl.
    destruct (Str.contains "Keyword" col); simpl; [discriminate|].
    apply IH.
Qed.

(** The denominator is not zero whenever a task is reached, so the only
    exception that leaves the loops is the KeyError of a table without a
    Brand column. *)
Lemma run_loops_raise df e :
  snd (run_loops driver now settings df) = Raise e -> e = KeyError "Brand".
Proof.
  unfold run_loops. intros H.
  apply for_each_raise in H as [row [st0 [Hrow H]]].
  unfold run_row in H.
  destruct (row_get (columns df) row "Brand") as [brand|];
    [|now inversion H].
  apply for_each_raise in H as [keyword [st1 [Hkw H]]].
  unfold run_keyword in H.
  apply for_each_raise in H as [site [st2 [Hsite H]]].
  rewrite run_task_no_raise in H; [discriminate|].
  unfold total_operations_of.
  apply keywords_of_columns in Hkw.
  destruct (rows df); [contradiction|].
  destruct (keyword_columns (columns df)); [contradiction|].
  destruct (get_site_configs (sites_config settings)); [contradiction|].
  simpl length. lia.
Qed.

End ScraperFacts.

(** C1: with fuzzy matching off, a link whose href holds the site's domain
    is collected, on a site with the brand in the URL, exactly when the
    lowercased brand occurs in the lowercased href, and on any other site
    always (its text, title and alt having been read). *)
Theorem should_add_fuzzy_disabled `{SM : SequenceMatcher}
    (settings : Settings) (config : SiteConfig) (brand : string)
    (link : WebElement) (rest : list WebElement) (href : string)
    (unique_links : gset string) :
  fuzzy_enabled settings = false ->
  get_attribute link "href" = Ok (Some href) ->
  href <> EmptyString ->
  Str.contains (domain_check config) href = true ->
  (brand_in_url config = true ->
   exists add,
     should_add settings config (Text brand) link href = Ok add
     /\ (add = true <-> occurs_in (Str.lower brand) (Str.lower href))
     /\ scan_links settings config (Text brand) (link :: rest) unique_links
        = let unique_links' :=
            if add then unique_links ∪ {[ href ]} else unique_links in
          if max_links_per_site settings <=? Z.of_nat (size unique_links')
          then Ok unique_links'
          else scan_links settings config (Text brand) rest unique_links')
  /\ (brand_in_url config = false ->
      forall link_text title_attr alt_attr,
        text link = Ok link_text ->
        get_attribute link "title" = Ok title_attr ->
        get_attribute link "alt" = Ok alt_attr ->
        should_add settings config (Text brand) link href = Ok true
        /\ scan_links settings config (Text brand) (link :: rest) unique_links
           = let unique_links' := unique_links ∪ {[ href ]} in
             if max_links_per_site settings <=? Z.of_nat (size unique_links')
             then Ok unique_links'
             else scan_links settings config (Text brand) rest unique_links').
Proof.
  intros Hoff Hhref Hne Hdom.
  assert (negb (String.eqb href EmptyString) = true) as Hne'.
  { apply negb_true_iff, String.eqb_neq. exact Hne. }
  split.
  - intros Hurl.
    exists (Str.contains (Str.lower brand) (Str.lower href)).
    assert (should_add settings config (Text brand) link href
            = Ok (Str.contains (Str.lower brand) (Str.lower href))) as Hadd.
    { unfold should_add, match_cell, fuzzy_match_brand.
      rewrite Hurl, Hoff. reflexivity. }
    split; [exact Hadd|]. split; [apply contains_true_iff|].
    simpl. rewrite Hhref. simpl. rewrite Hne', Hdom, Hadd. reflexivity.
  - intros Hurl link_text title_attr alt_attr Htext Htitle Halt.
    assert (should_add settings config (Text brand) link href = Ok true)
      as Hadd.
    { unfold should_add, match_cell.
      rewrite Hurl, Htext, Htitle, Halt, Hoff. reflexivity. }
    split; [exact Hadd|].
    simpl. rewrite Hhref. simpl. rewrite Hne', Hdom, Hadd. reflexivity.
Qed.

(** C6: with a cap of 1 or more, the set of links a task collects never
    holds more than the cap, whatever the list of candidates, and the task
    adds at most that many rows to the result table. *)
Theorem task_links_capped `{SM : SequenceMatcher}
    (driver : WebDriver) (now : nat -> string) (settings : Settings) :
  1 <= max_links_per_site settings ->
  (forall config brand links (s : gset string),
     scan_links settings config brand links ∅ = Ok s ->
     Z.of_nat (size s) <= max_links_per_site settings)
  /\ (forall total brand keyword term st site,
        exists rows,
          results (fst (run_task driver now settings total brand keyword
                          term st site))
          = (results st ++ rows)%list
          /\ Z.of_nat (length rows) <= max_links_per_site settings).
Proof.
  intros Hcap. split.
  - intros config brand links s H.
    eapply scan_links_size; [|exact H]. rewrite size_empty. lia.
  - intros total brand keyword term st [site_name config].
    destruct (run_task_rows driver now settings total brand keyword term st
                site_name config) as [rows [Heq [Hlen _]]].
    exists rows. auto.
Qed.

(** C9: every row of the result table carries the name of a selected
    site, and its URL holds the domain of that site's profile. *)
Theorem result_rows_sound `{SM : SequenceMatcher}
    (driver : WebDriver) (now : nat -> string) (settings : Settings)
    (df : DataFrame) (table : list Row) :
  snd (run_scraper driver now settings df) = Ok (Some table) ->
  forall row, In row table ->
    exists config,
      In (Site row, config) all_configs
      /\ site_enabled (sites_config settings) (Site row) = true
      /\ In (Site row) (map fst (get_site_configs (sites_config settings)))
      /\ Str.contains (domain_check config) (Product_URL row) = true.
Proof.
  unfold run_scraper. destruct (start driver); simpl; [|discriminate].
  pose proof (run_loops_sound driver now settings df) as Hsound.
  destruct (run_loops driver now settings df) as [st [[]|e]]; simpl in *;
    [|discriminate].
  destruct (results st) as [|r rs] eqn:Hres; [discriminate|].
  intros [= <-] row Hrow.
  rewrite List.Forall_forall in Hsound.
  destruct (Hsound row Hrow) as [config [Hin Hurl]].
  exists config.
  pose proof Hin as Hin'. apply get_site_configs_In in Hin' as [Hall Hon].
  repeat split; try assumption.
  apply in_map_iff. exists (Site row, config). auto.
Qed.

(** ** Fallback selectors *)

Lemma extend_links_all (page : Page) (selectors : list string)
    (founds : list (list WebElement)) (links : list WebElement) :
  Forall2 (fun selector found => find_elements page selector = Ok found)
          selectors founds ->
  extend_links page selectors links
  = (map driver_find_elements selectors, Ok (links ++ concat founds)%list).
Proof.
  intros H. revert links.
  induction H as [|selector found selectors founds Hsel _ IH]; intros links.
  - simpl. rewrite app_nil_r. reflexivity.
  - simpl. unfold and_then, call. rewrite Hsel, IH, <- app_assoc.
    reflexivity.
Qed.

(** C7: when the primary selector finds nothing and the profile has
    fallback selectors, each of them is queried, in order, and what they
    find is put together, in order; when the primary selector finds an
    element, no other selector is queried. *)
Theorem find_links_fallback (page : Page) (config : SiteConfig) :
  (forall founds,
     find_elements page (product_selector config) = Ok [] ->
     additional_selectors config <> [] ->
     Forall2 (fun selector found => find_elements page selector = Ok found)
             (additional_selectors config) founds ->
     find_links page config
     = (driver_find_elements (product_selector config)
          :: map driver_find_elements (additional_selectors config),
        Ok (concat founds)))
  /\ (forall link links,
        find_elements page (product_selector config) = Ok (link :: links) ->
        find_links page config
        = ([driver_find_elements (product_selector config)],
           Ok (link :: links))).
Proof.
  split.
  - intros founds Hnone Hsome Hall.
    unfold find_links, and_then, call. rewrite Hnone.
    destruct (additional_selectors config) as [|sel sels] eqn:Hsels;
      [contradiction|].
    rewrite (extend_links_all page (sel :: sels) founds [] Hall).
    reflexivity.
  - intros link links Hsome.
    unfold find_links, and_then, call. rewrite Hsome. reflexivity.
Qed.

(** ** The error boundary of a task *)

(** A failed navigation, a failed script and a failed query of the
    primary selector each end the body of the [try] with that error. *)
Lemma scrape_raises `{SM : SequenceMatcher} (settings : Settings)
    (page : Page) (config : SiteConfig) (brand : cell) (url : string) e :
  get page = Raise e
  \/ (get page = Ok tt /\ execute_script page scroll_script = Raise e)
  \/ (get page = Ok tt /\ execute_script page scroll_script = Ok tt
      /\ find_elements page (product_selector config) = Raise e) ->
  snd (scrape settings page config brand url) = Raise e.
Proof.
  unfold scrape, find_links, and_then, call.
  intros [H | [[H1 H2] | [H1 [H2 H3]]]].
  - rewrite H. reflexivity.
  - rewrite H1, H2. reflexivity.
  - rewrite H1, H2, H3. reflexivity.
Qed.

(** C8: an error raised anywhere in the body of a task is caught there:
    the task ends normally, adds no row to the result table, reports the
    error as a warning, and the loop goes on with the next site. *)
Theorem task_error_is_caught `{SM : SequenceMatcher}
    (driver : WebDriver) (now : nat -> string) (settings : Settings)
    (total : Z) (brand : cell) (keyword term : string) (st : State)
    (site_name : string) (config : SiteConfig)
    (rest : list (string * SiteConfig)) (e : exn) :
  total <> 0 ->
  snd (scrape settings
         (page_at driver (current_operation st + 1)
            (format (url_template config) (formatted_term config term) "1"))
         config brand
         (format (url_template config) (formatted_term config term) "1"))
  = Raise e ->
  exists st',
    run_task driver now settings total brand keyword term st
      (site_name, config) = (st', Ok tt)
    /\ results st' = results st
    /\ current_operation st' = current_operation st + 1
    /\ last (events st') = Some (st_warning site_name e)
    /\ for_each (run_task driver now settings total brand keyword term)
         ((site_name, config) :: rest) st
       = for_each (run_task driver now settings total brand keyword term)
           rest st'.
Proof.
  intros Htotal Hraise. apply Z.eqb_neq in Htotal.
  simpl for_each. unfold run_task. rewrite Htotal.
  destruct (scrape _ _ _ _ _) as [evs [s|e']]; simpl in Hraise;
    [discriminate|].
  injection Hraise as ->.
  eexists. split; [reflexivity|]. simpl.
  repeat split. apply last_snoc.
Qed.

(** No error of a task leaves [run_scraper]: the only exception it can
    raise is the KeyError of a table without a Brand column. *)
Lemma run_scraper_raise `{SM : SequenceMatcher}
    (driver : WebDriver) (now : nat -> string) (settings : Settings)
    (df : DataFrame) (e : exn) :
  snd (run_scraper driver now settings df) = Raise e -> e = KeyError "Brand".
Proof.
  unfold run_scraper. destruct (start driver); simpl; [|discriminate].
  pose proof (run_loops_raise driver now settings df) as Hloops.
  destruct (run_loops driver now settings df) as [st [[]|e']]; simpl in *;
    [discriminate|].
  intros [= <-]. apply Hloops. reflexivity.
Qed.

(** ** The progress counter *)

Section Progress.
Context {SM : SequenceMatcher}.
Variable driver : WebDriver.
Variable now : nat -> string.
Variable settings : Settings.

Lemma for_each_count {A} (body : State -> A -> State * result unit)
    (weight : A -> Z) (l : list A) (st : State) :
  (forall st0 x, In x l ->
     snd (body st0 x) = Ok tt
     /\ current_operation (fst (body st0 x))
        = current_operation st0 + weight x) ->
  snd (for_each body l st) = Ok tt
  /\ current_operation (fst (for_each body l st))
     = current_operation st + Zsum (map weight l).
Proof.
  revert st. induction l as [|x l IH]; intros st Hbody; simpl.
  - split; [reflexivity | lia].
  - destruct (Hbody st x (or_introl eq_refl)) as [Hok Hcount].
    destruct (body st x) as [st' r]. simpl in Hok, Hcount. subst r.
    destruct (IH st') as [Hok' Hcount'].
    { intros. apply Hbody. now right. }
    split; [exact Hok'|]. rewrite Hcount', Hcount. lia.
Qed.

Lemma Zsum_const {A} (l : list A) (k : Z) :
  Zsum (map (fun _ => k) l) = Z.of_nat (length l) * k.
Proof. induction l as [|x l IH]; simpl; [reflexivity | rewrite IH; lia]. Qed.

Lemma run_task_count total brand keyword term st site :
  current_operation
    (fst (run_task driver now settings total brand keyword term st site))
  = current_operation st + 1.
Proof.
  unfold run_task. destruct site as [site_name config].
  destruct (total =? 0); [reflexivity|].
  destruct (scrape _ _ _ _ _) as [evs [s|e]]; reflexivity.
Qed.

Lemma run_keyword_count total sites brand st keyword :
  total <> 0 \/ sites = [] ->
  snd (run_keyword driver now settings total sites brand st keyword) = Ok tt
  /\ current_operation
       (fst (run_keyword driver now settings total sites brand st keyword))
     = current_operation st + Z.of_nat (length sites).
Proof.
  intros [Htotal | ->]; [|split; simpl; [reflexivity | lia]].
  unfold run_keyword.
  destruct (for_each_count
              (run_task driver now settings total brand keyword
                 (str brand ++ " " ++ keyword))
              (fun _ => 1) sites st) as [Hok Hcount].
  { intros st0 site _. split;
      [apply run_task_no_raise; exact Htotal | apply run_task_count]. }
  split; [exact Hok|]. rewrite Hcount, Zsum_const. lia.
Qed.

Lemma run_row_count total sites cols st row :
  row_get cols row "Brand" <> None ->
  total <> 0 \/ sites = [] \/ keywords_of cols row = [] ->
  snd (run_row driver now settings total sites cols st row) = Ok tt
  /\ current_operation
       (fst (run_row driver now settings total sites cols st row))
     = current_operation st + tasks_of_row sites cols row.
Proof.
  intros Hbrand Hsafe. unfold run_row, tasks_of_row.
  destruct (row_get cols row "Brand") as [brand|]; [|contradiction].
  destruct Hsafe as [Htotal | [Hsites | ->]];
    [| | split; simpl; [reflexivity | lia]].
  - destruct (for_each_count
                (run_keyword driver now settings total sites brand)
                (fun _ => Z.of_nat (length sites))
                (keywords_of cols row) st) as [Hok Hcount].
    { intros st0 keyword _. apply run_keyword_count. now left. }
    split; [exact Hok|]. rewrite Hcount, Zsum_const. reflexivity.
  - destruct (for_each_count
                (run_keyword driver now settings total sites brand)
                (fun _ => Z.of_nat (length sites))
                (keywords_of cols row) st) as [Hok Hcount].
    { intros st0 keyword _. apply run_keyword_count. now right. }
    split; [exact Hok|]. rewrite Hcount, Zsum_const. reflexivity.
Qed.

(** The number of tasks run: the keywords each row has, times the
    sites. *)
Lemma run_loops_count df :
  Forall (fun row => row_get (columns df) row "Brand" <> None) (rows df) ->
  current_operation (fst (run_loops driver now settings df))
  = Zsum (map (tasks_of_row (get_site_configs (sites_config settings))
                 (columns df)) (rows df)).
Proof.
  intros Hbrand. unfold run_loops.
  set (sites := get_site_configs (sites_config settings)).
  destruct (for_each_count
              (run_row driver now settings (total_operations_of df sites)
                 sites (columns df))
              (tasks_of_row sites (columns df)) (rows df) initial)
    as [_ Hcount]; [|exact Hcount].
  intros st0 row Hrow. apply run_row_count.
  - rewrite List.Forall_forall in Hbrand. apply Hbrand. exact Hrow.
  - destruct sites as [|site sites']; [right; left; reflexivity|].
    destruct (keywords_of (columns df) row) as [|kw kws] eqn:Hkw;
      [right; right; reflexivity|].
    left. unfold total_operations_of.
    assert (keyword_columns (columns df) <> []) as Hcols.
    { apply (keywords_of_columns (columns df) row kw).
      rewrite Hkw. now left. }
    destruct (rows df); [contradiction|].
    destruct (keyword_columns (columns df)); [contradiction|].
    simpl length. lia.
Qed.

Lemma keywords_of_le cols row :
  (length (keywords_of cols row) <= length (keyword_columns cols))%nat.
Proof.
  revert row. induction cols as [|col cols IH]; intros row; simpl.
  - lia.
  - unfold keyword_columns. simpl.
    destruct row as [|x row]; [simpl; lia|].
    specialize (IH row). unfold keyword_columns in IH.
    destruct (Str.contains "Keyword" col); simpl;
      [destruct (notna x); simpl|]; lia.
Qed.

Lemma Zsum_tasks_le sites cols (table : list (list cell)) :
  Zsum (map (tasks_of_row sites cols) table)
  <= Z.of_nat (length table) * Z.of_nat (length (keyword_columns cols))
     * Z.of_nat (length sites).
Proof.
  induction table as [|row table IH]; simpl length; simpl Zsum; [lia|].
  pose proof (keywords_of_le cols row) as Hle. unfold tasks_of_row at 1.
  nia.
Qed.

Lemma Zsum_tasks_full sites cols (table : list (list cell)) :
  Forall (fun row => length (keywords_of cols row)
                     = length (keyword_columns cols)) table ->
  Zsum (map (tasks_of_row sites cols) table)
  = Z.of_nat (length table) * Z.of_nat (length (keyword_columns cols))
    * Z.of_nat (length sites).
Proof.
  induction 1 as [|row table Hrow _ IH]; simpl length; simpl Zsum; [lia|].
  unfold tasks_of_row at 1. rewrite Hrow, IH. lia.
Qed.

Lemma Zsum_tasks_short sites cols (table : list (list cell)) :
  sites <> [] ->
  Exists (fun row => (length (keywords_of cols row)
                      < length (keyword_columns cols))%nat) table ->
  Zsum (map (tasks_of_row sites cols) table)
  < Z.of_nat (length table) * Z.of_nat (length (keyword_columns cols))
    * Z.of_nat (length sites).
Proof.
  intros Hsites H.
  assert (0 < Z.of_nat (length sites)) as Hpos
    by (destruct sites; [contradiction | simpl length; lia]).
  induction H as [row table Hrow | row table _ IH];
    simpl length; simpl Zsum; unfold tasks_of_row at 1.
  - pose proof (Zsum_tasks_le sites cols table). nia.
  - pose proof (keywords_of_le cols row). nia.
Qed.

(** The counter never passes the denominator of line 219. *)
Lemma run_loops_count_le df :
  Forall (fun row => row_get (columns df) row "Brand" <> None) (rows df) ->
  current_operation (fst (run_loops driver now settings df))
  <= total_operations_of df (get_site_configs (sites_config settings)).
Proof.
  intros Hbrand. rewrite run_loops_count by exact Hbrand.
  apply Zsum_tasks_le.
Qed.

(** On a table where every row has a keyword under every keyword column
    the counter ends at the denominator of line 219. *)
Lemma run_loops_count_full df :
  Forall (fun row => row_get (columns df) row "Brand" <> None) (rows df) ->
  Forall (fun row => length (keywords_of (columns df) row)
                     = length (keyword_columns (columns df))) (rows df) ->
  current_operation (fst (run_loops driver now settings df))
  = total_operations_of df (get_site_configs (sites_config settings)).
Proof.
  intros Hbrand Hfull. rewrite run_loops_count by exact Hbrand.
  apply Zsum_tasks_full. exact Hfull.
Qed.

(** With a site selected, a row that lacks a keyword under some keyword
    column leaves the counter below the denominator at the end. *)
Lemma run_loops_count_short df :
  Forall (fun row => row_get (columns df) row "Brand" <> None) (rows df) ->
  get_site_configs (sites_config settings) <> [] ->
  Exists (fun row => (length (keywords_of (columns df) row)
                      < length (keyword_columns (columns df)))%nat)
         (rows df) ->
  current_operation (fst (run_loops driver now settings df))
  < total_operations_of df (get_site_configs (sites_config settings)).
Proof.
  intros Hbrand Hsites Hgap. rewrite run_loops_count by exact Hbrand.
  apply Zsum_tasks_short; assumption.
Qed.

End Progress.



(** C2, at a table whose second keyword cell is missing, with one site
    selected: the denominator of line 219 counts the missing cell and is
    2, one task is run, and the fraction reported for it, the last one,
    is 0.5 and not 1.0. *)
Theorem progress_stops_short :
  total_operations_of Demo.gappy_table
    (get_site_configs (sites_config Demo.fuzzy_on)) = 2
  /\ Zsum (map (tasks_of_row (get_site_configs (sites_config Demo.fuzzy_on))
                  (columns Demo.gappy_table)) (rows Demo.gappy_table)) = 1
  /\ current_operation
       (fst (run_loops (SM := Difflib.matcher) (Demo.chrome Demo.catalog)
               Demo.clock Demo.fuzzy_on Demo.gappy_table)) = 1
  /\ progress_reports
       (fst (run_scraper (SM := Difflib.matcher) (Demo.chrome Demo.catalog)
               Demo.clock Demo.fuzzy_on Demo.gappy_table))
     = [Float.div (Float.of_Z 1) (Float.of_Z 2)]
  /\ Float.div (Float.of_Z 1) (Float.of_Z 2) <> Float.of_Z 1.
Proof.
  repeat split; try (vm_compute; reflexivity).
  vm_compute. discriminate.
Qed.

(** On the table with every keyword cell filled the same run ends with
    the fraction 1.0. *)
Example progress_full_table :
  progress_reports
    (fst (run_scraper (SM := Difflib.matcher) (Demo.chrome Demo.catalog)
            Demo.clock Demo.fuzzy_on Demo.full_table))
  = [Float.div (Float.of_Z 1) (Float.of_Z 2); Float.of_Z 1].
Proof. vm_compute. reflexivity. Qed.

(** ** The theorems at concrete inputs *)

Lemma should_add_fuzzy_disabled_witness :
  (exists add,
     should_add (SM := Difflib.matcher) Demo.fuzzy_off alibaba (Text "Acme")
       Demo.acme_boots Demo.acme_boots_href = Ok add
     /\ add = true)
  /\ should_add (SM := Difflib.matcher) Demo.fuzzy_off dhgate (Text "Acme")
       Demo.globex "https://www.dhgate.com/product/2" = Ok true.
Proof.
  split.
  - destruct (proj1 (should_add_fuzzy_disabled (SM := Difflib.matcher)
                       Demo.fuzzy_off alibaba "Acme" Demo.acme_boots []
                       Demo.acme_boots_href ∅
                       eq_refl eq_refl ltac:(discriminate) eq_refl)
                eq_refl) as [add [Hadd [Hiff _]]].
    exists add. split; [exact Hadd|].
    apply Hiff. apply contains_true_iff. vm_compute. reflexivity.
  - apply (proj2 (should_add_fuzzy_disabled (SM := Difflib.matcher)
                    Demo.fuzzy_off dhgate "Acme" Demo.globex []
                    "https://www.dhgate.com/product/2" ∅
                    eq_refl eq_refl ltac:(discriminate) eq_refl)
             eq_refl "Globex Shoes" None None eq_refl eq_refl eq_refl).
Defined.

Lemma fuzzy_match_brand_literal_witness :
  occurs_in (Str.lower "Acme") (Str.lower "Cheap ACME shoes")
  /\ fuzzy_match_brand (SM := Difflib.matcher) true "Cheap ACME shoes" "Acme"
       100 = true.
Proof.
  assert (occurs_in (Str.lower "Acme") (Str.lower "Cheap ACME shoes")) as H.
  { exists "cheap ", " shoes". reflexivity. }
  split; [exact H|].
  apply (fuzzy_match_brand_literal (SM := Difflib.matcher) true
           "Cheap ACME shoes" "Acme" 100 H).
Defined.

Lemma fuzzy_match_brand_tokens_witness :
  ~ occurs_in (Str.lower "Acme") (Str.lower "cheap Akme shoez")
  /\ fuzzy_match_brand (SM := Difflib.matcher) true "cheap Akme shoez" "Acme"
       70 = true
  /\ scan_words_calls (SM := Difflib.matcher) (Str.lower "Acme") 70
       (Str.split (Str.lower "cheap Akme shoez"))
     = (["cheap"; "akme"], true).
Proof.
  assert (~ occurs_in (Str.lower "Acme") (Str.lower "cheap Akme shoez")) as H.
  { intros Hin. apply contains_true_iff in Hin. vm_compute in Hin.
    discriminate Hin. }
  split; [exact H|].
  destruct (fuzzy_match_brand_tokens (SM := Difflib.matcher)
              "cheap Akme shoez" "Acme" 70 H) as [Hiff [_ Hstop]].
  split.
  - apply Hiff. exists "akme".
    split; [right; left; reflexivity|].
    split; [vm_compute; discriminate | vm_compute; reflexivity].
  - apply (Hstop ["cheap"] "akme" ["shoez"]).
    + reflexivity.
    + intros v [<- | []]. vm_compute. reflexivity.
    + vm_compute. reflexivity.
Defined.

Lemma fuzzy_match_brand_antitone_witness :
  70 <= 75
  /\ fuzzy_match_brand (SM := Difflib.matcher) true "akme shoes" "Acme" 75
     = true
  /\ fuzzy_match_brand (SM := Difflib.matcher) true "akme shoes" "Acme" 70
     = true.
Proof.
  assert (70 <= 75) as Hle by lia.
  assert (fuzzy_match_brand (SM := Difflib.matcher) true "akme shoes" "Acme"
            75 = true) as H by (vm_compute; reflexivity).
  split; [exact Hle|]. split; [exact H|].
  apply (fuzzy_match_brand_antitone (SM := Difflib.matcher)
           "akme shoes" "Acme" 75 70 Hle H).
Defined.

Lemma task_links_capped_witness :
  1 <= max_links_per_site Demo.cap_one
  /\ Z.of_nat (size ({[ "https://x.test/item/1" ]} : gset string))
     <= max_links_per_site Demo.cap_one.
Proof.
  assert (1 <= max_links_per_site Demo.cap_one) as H by (simpl; lia).
  split; [exact H|].
  apply (proj1 (task_links_capped (SM := Difflib.matcher)
                  (Demo.chrome Demo.two_links) Demo.clock Demo.cap_one H)
           Demo.x_test (Text "Acme")
           [Demo.anchor "https://x.test/item/1" "Acme Shoes Deluxe";
            Demo.anchor "https://x.test/item/2" "Acme Shoes Classic"]).
  vm_compute. reflexivity.
Defined.

Lemma find_links_fallback_witness :
  fst (find_links Demo.fallback_page made_in_china)
  = map driver_find_elements
      (product_selector made_in_china :: additional_selectors made_in_china)
  /\ fst (find_links Demo.catalog dhgate)
     = [driver_find_elements (product_selector dhgate)].
Proof.
  split.
  - rewrite (proj1 (find_links_fallback Demo.fallback_page made_in_china)
               [ [];
                 [Demo.anchor "https://www.made-in-china.com/prod/1"
                    "Acme one"];
                 [Demo.anchor "https://www.made-in-china.com/prod/2"
                    "Acme two"] ]
               eq_refl ltac:(discriminate)
               ltac:(repeat constructor)).
    reflexivity.
  - rewrite (proj2 (find_links_fallback Demo.catalog dhgate)
               Demo.deluxe [Demo.globex; Demo.elsewhere; Demo.akme] eq_refl).
    reflexivity.
Defined.

Lemma task_error_is_caught_witness :
  2 <> 0
  /\ exists st',
       run_task (SM := Difflib.matcher) Demo.flaky Demo.clock Demo.fuzzy_on 2
         (Text "Acme") "shoes" "Acme shoes" initial ("DHgate", dhgate)
       = (st', Ok tt)
       /\ results st' = []
       /\ last (events st')
          = Some (st_warning "DHgate"
                    (WebDriverException "net::ERR_NAME_NOT_RESOLVED")).
Proof.
  assert (2 <> 0) as H by lia.
  split; [exact H|].
  destruct (task_error_is_caught (SM := Difflib.matcher) Demo.flaky
              Demo.clock Demo.fuzzy_on 2 (Text "Acme") "shoes" "Acme shoes"
              initial "DHgate" dhgate []
              (WebDriverException "net::ERR_NAME_NOT_RESOLVED") H eq_refl)
    as [st' [Hrun [Hres [_ [Hlast _]]]]].
  exists st'. repeat split; assumption.
Defined.

Lemma result_rows_sound_witness :
  snd (run_scraper (SM := Difflib.matcher) (Demo.chrome Demo.catalog)
         Demo.clock Demo.fuzzy_on Demo.full_table)
  = Ok (Some Demo.full_result)
  /\ forall row, In row Demo.full_result ->
       exists config,
         In (Site row, config) all_configs
         /\ site_enabled (sites_config Demo.fuzzy_on) (Site row) = true
         /\ In (Site row)
              (map fst (get_site_configs (sites_config Demo.fuzzy_on)))
         /\ Str.contains (domain_check config) (Product_URL row) = true.
Proof.
  assert (snd (run_scraper (SM := Difflib.matcher) (Demo.chrome Demo.catalog)
                 Demo.clock Demo.fuzzy_on Demo.full_table)
          = Ok (Some Demo.full_result)) as H by (vm_compute; reflexivity).
  split; [exact H|].
  exact (result_rows_sound (SM := Difflib.matcher) (Demo.chrome Demo.catalog)
           Demo.clock Demo.fuzzy_on Demo.full_table Demo.full_result H).
Defined.

(** ** The scenarios of the specification *)

(** A link whose text holds the brand is accepted: one row, with the
    keyword. *)
Example scenario_accepted :
  results
    (fst (run_task (SM := Difflib.matcher)
            (Demo.chrome (Demo.one_link "Acme Shoes Deluxe")) Demo.clock
            Demo.fuzzy_on 1 (Text "Acme") "shoes" "Acme shoes" initial
            ("X", Demo.x_test)))
  = [ {| Brand := Text "Acme"; Keyword := "shoes"; Site := "X";
         Product_URL := "https://x.test/item/1";
         Scraped_At := "2024-05-01 12:00:00" |} ].
Proof. vm_compute. reflexivity. Qed.

(** A link whose text has nothing of the brand is rejected. *)
Example scenario_rejected :
  results
    (fst (run_task (SM := Difflib.matcher)
            (Demo.chrome (Demo.one_link "Globex Shoes")) Demo.clock
            Demo.fuzzy_on 1 (Text "Acme") "shoes" "Acme shoes" initial
            ("X", Demo.x_test)))
  = [].
Proof. vm_compute. reflexivity. Qed.

(** With a cap of 1 and two links that qualify, one row. *)
Example scenario_cap_one :
  length
    (results
       (fst (run_task (SM := Difflib.matcher) (Demo.chrome Demo.two_links)
               Demo.clock Demo.cap_one 1 (Text "Acme") "shoes" "Acme shoes"
               initial ("X", Demo.x_test))))
  = 1%nat.
Proof. vm_compute. reflexivity. Qed.

(** No brand in the table: nothing is fetched and nothing is returned. *)
Example scenario_no_brands :
  run_scraper (SM := Difflib.matcher) (Demo.chrome Demo.catalog) Demo.clock
    Demo.fuzzy_on Demo.no_brands
  = ([driver_quit], Ok None).
Proof. vm_compute. reflexivity. Qed.

(** A missing Brand cell is the float NaN: matching raises inside the
    task, which is caught, and the task gives no row. *)
Example missing_brand_cell :
  run_task (SM := Difflib.matcher) (Demo.chrome Demo.catalog) Demo.clock
    Demo.fuzzy_off 1 NaN "shoes" "nan shoes" initial ("DHgate", dhgate)
  = ({| results := []; current_operation := 1;
        events :=
          [progress_bar_progress (Float.of_Z 1);
           status_text "DHgate" "nan shoes";
           driver_get (format (url_template dhgate) "nan+shoes" "1");
           time_sleep 5; driver_execute_script scroll_script; time_sleep 3;
           driver_find_elements (product_selector dhgate);
           st_warning "DHgate"
             (AttributeError "'float' object has no attribute 'lower'")] |},
     Ok tt).
Proof. vm_compute. reflexivity. Qed.

(** The cap is read after a link is added: a cap of 0, which the sidebar
    does not offer, would still let one link in. *)
Remark cap_zero_collects_one :
  scan_links (SM := Difflib.matcher)
    {| sites_config := Demo.only_dhgate; fuzzy_enabled := true;
       fuzzy_threshold := 80; max_links_per_site := 0;
       scroll_delay := 3; page_delay := 5 |}
    dhgate (Text "Acme") [Demo.deluxe; Demo.akme] ∅
  = Ok {[ "https://www.dhgate.com/product/1" ]}.
Proof. vm_compute. reflexivity. Qed.

(** The ratio is a float: 114/200 times 100 falls just short of 57. *)
Example ratio_is_rounded :
  Float.ge_Z
    (Float.mul (Difflib.calculate_ratio 57 200) (Float.of_Z 100)) 57
  = false.
Proof. vm_compute. reflexivity. Qed.

Example ratio_tide_diet :
  Difflib.matches (list_ascii_of_string "tide") (list_ascii_of_string "diet")
  = 1%nat
  /\ Difflib.matches (list_ascii_of_string "diet")
       (list_ascii_of_string "tide") = 2%nat.
Proof. split; reflexivity. Qed.

(** ** The events of a task *)

Lemma extend_links_events (page : Page) (selectors : list string)
    (links : list WebElement) :
  forallb on_page (fst (extend_links page selectors links)) = true.
Proof.
  revert links. induction selectors as [|selector rest IH]; intros links;
    [reflexivity|].
  simpl. unfold and_then, call.
  destruct (find_elements page selector) as [found|e]; [|reflexivity].
  specialize (IH (links ++ found)%list).
  destruct (extend_links page rest (links ++ found)%list) as [evs r].
  simpl in *. exact IH.
Qed.

Lemma find_links_events (page : Page) (config : SiteConfig) :
  forallb on_page (fst (find_links page config)) = true.
Proof.
  unfold find_links, and_then, call.
  destruct (find_elements page (product_selector config)) as [links|e];
    [|reflexivity].
  destruct links as [|link links]; [|reflexivity].
  destruct (additional_selectors config) as [|sel sels] eqn:Hsels;
    [reflexivity|].
  pose proof (extend_links_events page (sel :: sels) []) as H.
  destruct (extend_links page (sel :: sels) []) as [evs r]. exact H.
Qed.

(** A task loads its page first and once; what follows is done on that
    page. *)
Lemma scrape_events `{SM : SequenceMatcher} (settings : Settings)
    (page : Page) (config : SiteConfig) (brand : cell) (url : string) :
  exists rest,
    fst (scrape settings page config brand url) = driver_get url :: rest
    /\ forallb on_page rest = true.
Proof.
  unfold scrape, and_then, call, lift.
  destruct (get page); [|exists []; split; reflexivity].
  destruct (execute_script page scroll_script);
    [|eexists; split; reflexivity].
  pose proof (find_links_events page config) as Hfind.
  destruct (find_links page config) as [evs [links|e]]; simpl in Hfind.
  - destruct (scan_links settings config brand links ∅);
      (eexists; split; [reflexivity|]); simpl;
      rewrite app_nil_r; exact Hfind.
  - eexists; split; [reflexivity|]. exact Hfind.
Qed.

Section TaskEvents.
Context {SM : SequenceMatcher}.
Variable driver : WebDriver.
Variable now : nat -> string.
Variable settings : Settings.

Lemma run_task_events total brand keyword term st site_name config :
  total <> 0 ->
  exists new,
    events (fst (run_task driver now settings total brand keyword term st
                   (site_name, config)))
    = (events st ++ new)%list
    /\ task_events total (current_operation st + 1) site_name term
         (format (url_template config) (formatted_term config term) "1") new.
Proof.
  intros Htotal. apply Z.eqb_neq in Htotal. unfold run_task.
  rewrite Htotal.
  set (url := format (url_template config) (formatted_term config term) "1").
  set (page := page_at driver (current_operation st + 1) url).
  destruct (scrape_events settings page config brand url)
    as [rest [Hevs Hrest]].
  destruct (scrape settings page config brand url) as [evs [s|e]];
    simpl in Hevs; subst evs; simpl.
  - eexists. split; [reflexivity|]. exists rest, [].
    rewrite app_nil_r. auto.
  - eexists. split; [rewrite <- app_assoc; reflexivity|].
    exists rest, [st_warning site_name e]. simpl. eauto.
Qed.

Lemma run_task_events_zero brand keyword term st site :
  events (fst (run_task driver now settings 0 brand keyword term st site))
  = events st.
Proof. destruct site. reflexivity. Qed.

Lemma task_events_loads total current site_name term url new :
  task_events total current site_name term url new -> page_loads new = 1.
Proof.
  intros [rest [tail [-> [Hrest Htail]]]]. unfold page_loads. simpl.
  rewrite List.filter_app.
  assert (List.filter is_get rest = []) as ->.
  { clear -Hrest. induction rest as [|ev rest IH]; [reflexivity|].
    simpl in *. apply andb_true_iff in Hrest as [Hev Hrest].
    destruct ev; try discriminate; simpl; auto. }
  destruct Htail as [-> | [e ->]]; reflexivity.
Qed.


End TaskEvents.

(** ** Invariants of the three loops *)

Section LoopFacts.
Context {SM : SequenceMatcher}.
Variable driver : WebDriver.
Variable now : nat -> string.
Variable settings : Settings.

(** Where a task is reached the denominator of line 219 is not zero. *)
Lemma total_operations_reached df row keyword site :
  In row (rows df) ->
  In keyword (keywords_of (columns df) row) ->
  In site (get_site_configs (sites_config settings)) ->
  total_operations_of df (get_site_configs (sites_config settings)) <> 0.
Proof.
  intros Hrow Hkw Hsite. unfold total_operations_of.
  apply keywords_of_columns in Hkw.
  destruct (rows df); [contradiction|].
  destruct (keyword_columns (columns df)); [contradiction|].
  destruct (get_site_configs (sites_config settings)); [contradiction|].
  simpl length. lia.
Qed.

(** What every task keeps, the loops keep. *)
Lemma run_loops_invariant (P : State -> Prop) df :
  P initial ->
  (forall st row brand keyword site,
     In row (rows df) ->
     row_get (columns df) row "Brand" = Some brand ->
     In keyword (keywords_of (columns df) row) ->
     In site (get_site_configs (sites_config settings)) ->
     P st ->
     P (fst (run_task driver now settings
               (total_operations_of df
                  (get_site_configs (sites_config settings)))
               brand keyword (str brand ++ " " ++ keyword) st site))) ->
  P (fst (run_loops driver now settings df)).
Proof.
  intros Hinit Htask. unfold run_loops.
  apply (for_each_invariant P); [|exact Hinit].
  intros st row Hrow Hst. unfold run_row.
  destruct (row_get (columns df) row "Brand") as [brand|] eqn:Hbrand;
    [|exact Hst].
  apply (for_each_invariant P); [|exact Hst].
  intros st1 keyword Hkw Hst1. unfold run_keyword.
  apply (for_each_invariant P); [|exact Hst1].
  intros st2 site Hsite Hst2. eapply Htask; eassumption.
Qed.

(** The rows a task appends carry its brand, keyword and site, and their
    URLs are the collected links, each once. *)
Lemma append_rows_fields brand keyword site_name (s : gset string) res :
  exists rows,
    append_rows now brand keyword site_name s res = (res ++ rows)%list
    /\ map Product_URL rows = elements s
    /\ Forall (fun r => Brand r = brand /\ Keyword r = keyword
                        /\ Site r = site_name) rows.
Proof.
  unfold append_rows. generalize (elements s). intros l. revert res.
  induction l as [|x l IH]; intros res; simpl.
  - exists []. rewrite app_nil_r. repeat split. constructor.
  - destruct (IH (res ++ [ {| Brand := brand; Keyword := keyword;
                               Site := site_name; Product_URL := x;
                               Scraped_At := now (length res) |} ])%list)
      as [rows [Heq [Hurls Hfields]]].
    eexists (_ :: rows). rewrite Heq, <- app_assoc. simpl.
    split; [reflexivity|]. split; [now rewrite Hurls|].
    constructor; [simpl; auto | exact Hfields].
Qed.

Lemma run_task_fields total brand keyword term st site_name config :
  exists rows,
    results (fst (run_task driver now settings total brand keyword term st
                    (site_name, config)))
    = (results st ++ rows)%list
    /\ Forall (fun r => Brand r = brand /\ Keyword r = keyword
                        /\ Site r = site_name) rows.
Proof.
  unfold run_task.
  destruct (total =? 0).
  { exists []. simpl. rewrite app_nil_r. split; constructor. }
  destruct (scrape _ _ _ _ _) as [evs [s|e]]; simpl.
  - destruct (append_rows_fields brand keyword site_name s (results st))
      as [rows [Heq [_ Hfields]]].
    exists rows. auto.
  - exists []. rewrite app_nil_r. split; constructor.
Qed.

Lemma page_loads_app (evs evs' : list Event) :
  page_loads (evs ++ evs')%list = page_loads evs + page_loads evs'.
Proof.
  unfold page_loads. rewrite List.filter_app, length_app. lia.
Qed.

(** The counter only grows, by at most the tasks of each element. *)
Lemma for_each_count_le {A} (body : State -> A -> State * result unit)
    (weight : A -> Z) (l : list A) (st : State) :
  (forall x, 0 <= weight x) ->
  (forall st0 x, In x l ->
     current_operation st0 <= current_operation (fst (body st0 x))
     <= current_operation st0 + weight x) ->
  current_operation st <= current_operation (fst (for_each body l st))
  <= current_operation st + Zsum (map weight l).
Proof.
  intros Hpos. revert st. induction l as [|x l IH]; intros st Hbody; simpl.
  - lia.
  - pose proof (Hbody st x (or_introl eq_refl)) as Hx.
    assert (0 <= Zsum (map weight l)) as Hsum.
    { clear -Hpos. induction l as [|y l IH]; simpl; [lia|].
      specialize (Hpos y). lia. }
    specialize (Hpos x).
    destruct (body st x) as [st' [[]|e]]; simpl in *; [|lia].
    specialize (IH st'). 
    assert (current_operation st'
            <= current_operation (fst (for_each body l st'))
            <= current_operation st' + Zsum (map weight l)) as H'.
    { apply IH. intros. apply Hbody. now right. }
    lia.
Qed.

(** The counter ends at the denominator of line 219 or below, on every
    table. *)
Lemma run_loops_counter_le df :
  0 <= current_operation (fst (run_loops driver now settings df))
  <= total_operations_of df (get_site_configs (sites_config settings)).
Proof.
  unfold run_loops.
  set (sites := get_site_configs (sites_config settings)).
  set (total := total_operations_of df sites).
  assert (forall sites cols row, 0 <= tasks_of_row sites cols row) as Hpos
    by (intros; unfold tasks_of_row; lia).
  destruct (for_each_count_le
              (run_row driver now settings total sites (columns df))
              (tasks_of_row sites (columns df)) (rows df) initial)
    as [Hlo Hhi].
  - intros row. apply Hpos.
  - intros st0 row _. specialize (Hpos sites (columns df) row).
    unfold run_row, tasks_of_row in *.
    destruct (row_get (columns df) row "Brand") as [brand|];
      [|cbn [fst]; lia].
    destruct (for_each_count_le
                (run_keyword driver now settings total sites brand)
                (fun _ => Z.of_nat (length sites))
                (keywords_of (columns df) row) st0) as [Hlo Hhi].
    + intros _. lia.
    + intros st1 keyword _. unfold run_keyword.
      destruct (for_each_count_le
                  (run_task driver now settings total brand keyword
                     (str brand ++ " " ++ keyword))
                  (fun _ => 1) sites st1) as [Hlo Hhi].
      * intros _. lia.
      * intros st2 site _. rewrite run_task_count. lia.
      * rewrite Zsum_const in Hhi. lia.
    + rewrite Zsum_const in Hhi. lia.
  - change (current_operation initial) with 0 in Hlo, Hhi.
    split; [exact Hlo|].
    pose proof (Zsum_tasks_le sites (columns df) (rows df)) as Hsum.
    etransitivity; [exact Hhi|]. rewrite Z.add_0_l. exact Hsum.
Qed.

End LoopFacts.

(** ** The check of the table and the run *)

Lemma validate_brand df :
  validate df <> no_brand_column <-> In "Brand" (columns df).
Proof.
  unfold validate.
  destruct (existsb (String.eqb "Brand") (columns df)) eqn:Hex; simpl.
  - apply existsb_exists in Hex as [c [Hin Hc]].
    apply String.eqb_eq in Hc. subst c.
    split; [intros _; exact Hin|].
    intros _. destruct (keyword_columns (columns df)); discriminate.
  - split; [intros H; now contradiction H|].
    intros Hin. assert (existsb (String.eqb "Brand") (columns df) = true).
    { apply existsb_exists. exists "Brand".
      split; [exact Hin | apply String.eqb_refl]. }
    congruence.
Qed.

Lemma row_get_some cols row col :
  In col cols -> length row = length cols -> row_get cols row col <> None.
Proof.
  revert row. induction cols as [|c cols IH]; intros row Hin Hlen;
    [destruct Hin|].
  destruct row as [|x row]; [discriminate|]. simpl.
  destruct (String.eqb_spec c col) as [->|Hne]; [discriminate|].
  apply IH; [|simpl in Hlen; lia].
  destruct Hin as [->|Hin]; [contradiction | exact Hin].
Qed.

Lemma row_get_none cols row col :
  ~ In col cols -> row_get cols row col = None.
Proof.
  revert row. induction cols as [|c cols IH]; intros row Hin;
    [reflexivity|].
  destruct row as [|x row]; [reflexivity|]. simpl.
  destruct (String.eqb_spec c col) as [->|Hne].
  - contradiction Hin. now left.
  - apply IH. intros H. apply Hin. now right.
Qed.

Lemma valid_rows_have_brand df :
  validate df <> no_brand_column -> well_formed df ->
  Forall (fun row => row_get (columns df) row "Brand" <> None) (rows df).
Proof.
  intros Hvalid Hwf. apply validate_brand in Hvalid.
  unfold well_formed in Hwf. rewrite List.Forall_forall in *.
  intros row Hrow. apply row_get_some; auto.
Qed.

Section RunFacts.
Context {SM : SequenceMatcher}.
Variable driver : WebDriver.
Variable now : nat -> string.
Variable settings : Settings.

Lemma run_loops_ok df :
  Forall (fun row => row_get (columns df) row "Brand" <> None) (rows df) ->
  snd (run_loops driver now settings df) = Ok tt.
Proof.
  intros Hbrand.
  destruct (run_loops driver now settings df) as [st [[]|e]] eqn:Hrun;
    [reflexivity|].
  assert (snd (run_loops driver now settings df) = Raise e) as Hraise
    by now rewrite Hrun.
  unfold run_loops in Hraise.
  apply for_each_raise in Hraise as [row [st0 [Hrow H]]].
  unfold run_row in H. rewrite List.Forall_forall in Hbrand.
  specialize (Hbrand row Hrow).
  destruct (row_get (columns df) row "Brand") as [brand|]; [|contradiction].
  apply for_each_raise in H as [keyword [st1 [Hkw H]]].
  unfold run_keyword in H.
  apply for_each_raise in H as [site [st2 [Hsite H]]].
  rewrite run_task_no_raise in H; [discriminate|].
  eapply total_operations_reached; eassumption.
Qed.


(** One page load per task. *)
Lemma run_loops_page_loads df :
  page_loads (events (fst (run_loops driver now settings df)))
  = current_operation (fst (run_loops driver now settings df)).
Proof.
  apply (run_loops_invariant driver now settings
           (fun st => page_loads (events st) = current_operation st));
    [reflexivity|].
  intros st row brand keyword [site_name config] Hrow Hbrand Hkw Hsite Hst.
  rewrite run_task_count.
  destruct (run_task_events driver now settings
              (total_operations_of df
                 (get_site_configs (sites_config settings)))
              brand keyword (str brand ++ " " ++ keyword) st site_name config)
    as [new [-> Hnew]].
  { eapply total_operations_reached; eassumption. }
  rewrite page_loads_app, Hst.
  erewrite task_events_loads by exact Hnew. reflexivity.
Qed.




End RunFacts.

(** * Further properties of the run *)

(** X1: on a table with a Brand column and one cell per column in every
    row, [run_scraper] returns, whatever the browser does: no exception
    leaves it. *)
Theorem run_scraper_returns `{SM : SequenceMatcher}
    (driver : WebDriver) (now : nat -> string) (settings : Settings)
    (df : DataFrame) :
  validate df <> no_brand_column -> well_formed df ->
  exists out, snd (run_scraper driver now settings df) = Ok out.
Proof.
  intros Hvalid Hwf. unfold run_scraper.
  destruct (start driver); [|eexists; reflexivity].
  pose proof (run_loops_ok driver now settings df
                (valid_rows_have_brand df Hvalid Hwf)) as Hok.
  destruct (run_loops driver now settings df) as [st r]. simpl in Hok.
  subst r. eexists. reflexivity.
Qed.

(** X2: on a table with a row and no Brand column, [run_scraper] raises
    KeyError('Brand') at the first row: no page is loaded, and the browser
    is quit before the exception leaves. *)
Theorem run_scraper_missing_brand `{SM : SequenceMatcher}
    (driver : WebDriver) (now : nat -> string) (settings : Settings)
    (df : DataFrame) :
  start driver = Ok tt ->
  validate df = no_brand_column ->
  rows df <> [] ->
  run_scraper driver now settings df
  = ([driver_quit], Raise (KeyError "Brand")).
Proof.
  intros Hstart Hvalid Hrows. unfold run_scraper, run_loops.
  rewrite Hstart.
  assert (~ In "Brand" (columns df)) as Hno.
  { intros Hin. apply validate_brand in Hin. contradiction. }
  destruct (rows df) as [|row rest]; [contradiction|].
  simpl. unfold run_row. rewrite (row_get_none _ _ _ Hno). reflexivity.
Qed.


(** X4: when the denominator of line 219 is zero (no row, no Keyword
    column or no site selected) on a table with a Brand column, the run
    loads no page, reports nothing and returns None. *)
Theorem run_scraper_nothing_to_do `{SM : SequenceMatcher}
    (driver : WebDriver) (now : nat -> string) (settings : Settings)
    (df : DataFrame) :
  start driver = Ok tt ->
  validate df <> no_brand_column -> well_formed df ->
  total_operations_of df (get_site_configs (sites_config settings)) = 0 ->
  run_scraper driver now settings df = ([driver_quit], Ok None).
Proof.
  intros Hstart Hvalid Hwf Hzero. unfold run_scraper. rewrite Hstart.
  pose proof (run_loops_ok driver now settings df
                (valid_rows_have_brand df Hvalid Hwf)) as Hok.
  assert (fst (run_loops driver now settings df) = initial) as Hst.
  { apply (run_loops_invariant driver now settings
             (fun st => st = initial)); [reflexivity|].
    intros st row brand keyword site Hrow _ Hkw Hsite _.
    exfalso.
    apply (total_operations_reached settings df row keyword site);
      assumption. }
  destruct (run_loops driver now settings df) as [st r]. simpl in *.
  subst st r. reflexivity.
Qed.


(** X6: on a table with a Brand column the run calls [driver.get] exactly
    once per task, failed tasks included: as many times as the rows have
    keywords, times the selected sites. *)
Theorem one_page_load_per_task `{SM : SequenceMatcher}
    (driver : WebDriver) (now : nat -> string) (settings : Settings)
    (df : DataFrame) :
  start driver = Ok tt ->
  validate df <> no_brand_column -> well_formed df ->
  page_loads (fst (run_scraper driver now settings df))
  = Zsum (map (tasks_of_row (get_site_configs (sites_config settings))
                 (columns df)) (rows df)).
Proof.
  intros Hstart Hvalid Hwf. unfold run_scraper. rewrite Hstart.
  pose proof (run_loops_page_loads driver now settings df) as Hloads.
  pose proof (run_loops_count driver now settings df
                (valid_rows_have_brand df Hvalid Hwf)) as Hcount.
  destruct (run_loops driver now settings df) as [st r]. simpl in *.
  rewrite <- Hcount, <- Hloads.
  destruct r as [[]|e]; simpl; rewrite page_loads_app; simpl;
    unfold page_loads at 2; simpl; lia.
Qed.

(** X7: every row of the result table comes from a row of the input
    table: its Brand is that row's Brand cell and its Keyword is the text
    of one of that row's filled Keyword cells. *)
Theorem result_rows_from_table `{SM : SequenceMatcher}
    (driver : WebDriver) (now : nat -> string) (settings : Settings)
    (df : DataFrame) (table : list Row) :
  snd (run_scraper driver now settings df) = Ok (Some table) ->
  Forall (row_from df) table.
Proof.
  unfold run_scraper. destruct (start driver); simpl; [|discriminate].
  assert (Forall (row_from df)
            (results (fst (run_loops driver now settings df)))) as Hfrom.
  { apply (run_loops_invariant driver now settings
             (fun st => Forall (row_from df) (results st))); [constructor|].
    intros st row brand keyword [site_name config] Hrow Hbrand Hkw _ Hst.
    destruct (run_task_fields driver now settings
                (total_operations_of df
                   (get_site_configs (sites_config settings)))
                brand keyword (str brand ++ " " ++ keyword) st
                site_name config) as [new [-> Hnew]].
    apply Forall_app. split; [exact Hst|].
    eapply List.Forall_impl; [|exact Hnew]. intros r [Hb [Hk _]].
    exists row. rewrite Hb, Hk. auto. }
  destruct (run_loops driver now settings df) as [st [[]|e]]; simpl in *;
    [|discriminate].
  destruct (results st); [discriminate|].
  intros [= <-]. exact Hfrom.
Qed.

(** X8: the rows one task adds to the result table carry the brand, the
    keyword and the site of the task, and no two of them have the same
    Product URL. *)
Theorem task_rows_distinct `{SM : SequenceMatcher}
    (driver : WebDriver) (now : nat -> string) (settings : Settings)
    (total : Z) (brand : cell) (keyword term : string) (st : State)
    (site_name : string) (config : SiteConfig) :
  exists rows,
    results (fst (run_task driver now settings total brand keyword term st
                    (site_name, config)))
    = (results st ++ rows)%list
    /\ NoDup (map Product_URL rows)
    /\ Forall (fun r => Brand r = brand /\ Keyword r = keyword
                        /\ Site r = site_name) rows.
Proof.
  unfold run_task.
  destruct (total =? 0).
  { exists []. simpl. rewrite app_nil_r. repeat split; constructor. }
  destruct (scrape _ _ _ _ _) as [evs [s|e]]; simpl.
  - destruct (append_rows_fields now brand keyword site_name s (results st))
      as [rows [Heq [Hurls Hfields]]].
    exists rows. split; [exact Heq|]. split; [|exact Hfields].
    rewrite Hurls. apply NoDup_elements.
  - exists []. rewrite app_nil_r. repeat split; constructor.
Qed.

(** X9: with a cap of 1 or more, the result table has at most cap rows
    per task run, hence at most total_operations * cap rows. *)
Theorem result_table_bounded `{SM : SequenceMatcher}
    (driver : WebDriver) (now : nat -> string) (settings : Settings)
    (df : DataFrame) (table : list Row) :
  1 <= max_links_per_site settings ->
  snd (run_scraper driver now settings df) = Ok (Some table) ->
  Z.of_nat (length table)
  <= total_operations_of df (get_site_configs (sites_config settings))
     * max_links_per_site settings.
Proof.
  intros Hcap. unfold run_scraper.
  destruct (start driver); simpl; [|discriminate].
  assert (Z.of_nat (length (results (fst (run_loops driver now settings df))))
          <= current_operation (fst (run_loops driver now settings df))
             * max_links_per_site settings) as Hsize.
  { apply (run_loops_invariant driver now settings
             (fun st => Z.of_nat (length (results st))
                        <= current_operation st
                           * max_links_per_site settings));
      [simpl; lia|].
    intros st row brand keyword [site_name config] _ _ _ _ Hst.
    rewrite run_task_count.
    destruct (run_task_rows driver now settings
                (total_operations_of df
                   (get_site_configs (sites_config settings)))
                brand keyword (str brand ++ " " ++ keyword) st
                site_name config) as [new [-> [Hlen _]]].
    specialize (Hlen Hcap). rewrite length_app. lia. }
  pose proof (run_loops_counter_le driver now settings df) as [Hlo Hhi].
  destruct (run_loops driver now settings df) as [st [[]|e]]; simpl in *;
    [|discriminate].
  destruct (results st) eqn:Hres; [discriminate|].
  intros [= <-]. nia.
Qed.

(** ** Further properties of a task *)

Section TaskFacts.
Context {SM : SequenceMatcher}.
Variable driver : WebDriver.
Variable now : nat -> string.
Variable settings : Settings.

Lemma extend_links_from page selectors links out :
  snd (extend_links page selectors links) = Ok out ->
  forall link, In link out ->
    In link links
    \/ exists selector found,
         In selector selectors
         /\ find_elements page selector = Ok found /\ In link found.
Proof.
  revert links. induction selectors as [|selector rest IH]; intros links;
    simpl.
  - intros [= <-] link Hin. now left.
  - unfold and_then, call.
    destruct (find_elements page selector) as [found|e] eqn:Hsel;
      [|discriminate].
    specialize (IH (links ++ found)%list).
    destruct (extend_links page rest (links ++ found)%list) as [evs r].
    simpl in *. intros Hr link Hin.
    destruct (IH Hr link Hin) as [Hold | [sel [fnd [Hs [Hf Hl]]]]].
    + apply in_app_or in Hold as [Hold | Hnew]; [now left|].
      right. exists selector, found. auto.
    + right. exists sel, fnd. auto.
Qed.

Lemma find_links_from page config links :
  snd (find_links page config) = Ok links ->
  forall link, In link links ->
    exists selector found,
      In selector (selectors_of config)
      /\ find_elements page selector = Ok found /\ In link found.
Proof.
  unfold find_links, and_then, call, selectors_of.
  destruct (find_elements page (product_selector config)) as [found|e]
    eqn:Hprimary; [|discriminate].
  destruct found as [|l0 found].
  - destruct (additional_selectors config) as [|sel sels] eqn:Hsels.
    + simpl. intros [= <-] link [].
    + pose proof (extend_links_from page (sel :: sels) [] links) as Hfrom.
      destruct (extend_links page (sel :: sels) []) as [evs r].
      simpl in *. intros Hr link Hin.
      destruct (Hfrom Hr link Hin) as [[] | [s [fnd [Hs [Hf Hl]]]]].
      exists s, fnd. auto.
  - simpl. intros [= <-] link Hin.
    exists (product_selector config), (l0 :: found). auto.
Qed.

Lemma scan_links_from config brand links (u s : gset string) :
  scan_links settings config brand links u = Ok s ->
  forall h, h ∈ s ->
    h ∈ u
    \/ (h <> EmptyString
        /\ exists link, In link links
                        /\ get_attribute link "href" = Ok (Some h)).
Proof.
  revert u. induction links as [|link rest IH]; intros u; simpl.
  - intros [= <-] h Hh. now left.
  - destruct (get_attribute link "href") as [[h0|]|e] eqn:Hhref; simpl;
      [ | | discriminate ].
    + assert (forall u', scan_links settings config brand rest u' = Ok s ->
                forall h, h ∈ s ->
                  h ∈ u'
                  \/ (h <> EmptyString
                      /\ exists l, In l (link :: rest)
                                   /\ get_attribute l "href" = Ok (Some h)))
        as IH'.
      { intros u' Hu' h Hh.
        destruct (IH u' Hu' h Hh) as [H | [Hne [l [Hl Hg]]]]; [now left|].
        right. split; [exact Hne|]. exists l. simpl. auto. }
      destruct (negb (String.eqb h0 EmptyString)
                && Str.contains (domain_check config) h0) eqn:Hdom;
        [|apply IH'].
      apply andb_true_iff in Hdom as [Hne _].
      apply negb_true_iff, String.eqb_neq in Hne.
      destruct (should_add settings config brand link h0) as [add|e]; simpl;
        [|discriminate].
      assert (forall h, h ∈ (if add then u ∪ {[ h0 ]} else u) ->
                h ∈ u
                \/ (h <> EmptyString
                    /\ exists l, In l (link :: rest)
                                 /\ get_attribute l "href" = Ok (Some h)))
        as Hstep.
      { destruct add; [|now left].
        intros h [Hin | ->%elem_of_singleton]%elem_of_union; [now left|].
        right. split; [exact Hne|]. exists link. simpl. auto. }
      destruct (max_links_per_site settings <=? _).
      * intros [= <-]. exact Hstep.
      * intros Hrest h Hh.
        destruct (IH' _ Hrest h Hh) as [Hin | Hnew]; [|now right].
        apply Hstep. exact Hin.
    + intros Hrest h Hh.
      destruct (IH u Hrest h Hh) as [H | [Hne [l [Hl Hg]]]]; [now left|].
      right. split; [exact Hne|]. exists l. simpl. auto.
Qed.

Lemma scrape_ok_links page config brand url (s : gset string) :
  snd (scrape settings page config brand url) = Ok s ->
  exists links,
    snd (find_links page config) = Ok links
    /\ scan_links settings config brand links ∅ = Ok s.
Proof.
  unfold scrape, and_then, call, lift.
  destruct (get page); simpl; [|discriminate].
  destruct (execute_script page scroll_script); simpl; [|discriminate].
  destruct (find_links page config) as [evs [links|e]]; simpl;
    [|discriminate].
  intros H. exists links. auto.
Qed.

Lemma should_add_needs_text config brand link h :
  (forall b, brand <> Text b) ->
  exists e, should_add settings config brand link h = Raise e.
Proof.
  intros Hbrand. unfold should_add, match_cell.
  destruct brand as [|b|shown]; [| contradiction (Hbrand b eq_refl) |].
  - destruct (brand_in_url config); [eexists; reflexivity|].
    destruct (text link); simpl; [|eexists; reflexivity].
    destruct (get_attribute link "title"); simpl; [|eexists; reflexivity].
    destruct (get_attribute link "alt"); simpl; eexists; reflexivity.
  - destruct (brand_in_url config); [eexists; reflexivity|].
    destruct (text link); simpl; [|eexists; reflexivity].
    destruct (get_attribute link "title"); simpl; [|eexists; reflexivity].
    destruct (get_attribute link "alt"); simpl; eexists; reflexivity.
Qed.

Lemma scan_links_needs_text config brand links (u s : gset string) :
  (forall b, brand <> Text b) ->
  scan_links settings config brand links u = Ok s -> s = u.
Proof.
  intros Hbrand. induction links as [|link rest IH]; simpl.
  - now intros [= <-].
  - destruct (get_attribute link "href") as [[h|]|e]; simpl;
      [ | exact IH | discriminate ].
    destruct (negb (String.eqb h EmptyString)
              && Str.contains (domain_check config) h); [|exact IH].
    destruct (should_add_needs_text config brand link h Hbrand) as [e ->].
    discriminate.
Qed.

Lemma append_rows_empty brand keyword site_name res :
  append_rows now brand keyword site_name ∅ res = res.
Proof. unfold append_rows. rewrite elements_empty. reflexivity. Qed.

End TaskFacts.

(** X10: with a cap of 1 or more, one brand-keyword combination adds at
    most (number of selected sites) * cap rows to the result table, the
    figure the configuration summary shows as expected links. *)
Theorem keyword_rows_bounded `{SM : SequenceMatcher}
    (driver : WebDriver) (now : nat -> string) (settings : Settings)
    (total : Z) (sites : list (string * SiteConfig)) (brand : cell)
    (st : State) (keyword : string) :
  1 <= max_links_per_site settings ->
  exists rows,
    results (fst (run_keyword driver now settings total sites brand st
                    keyword))
    = (results st ++ rows)%list
    /\ Z.of_nat (length rows)
       <= Z.of_nat (length sites) * max_links_per_site settings.
Proof.
  intros Hcap. unfold run_keyword.
  set (body := run_task driver now settings total brand keyword
                 (str brand ++ " " ++ keyword)).
  assert (exists rows,
            results (fst (for_each body sites st)) = (results st ++ rows)%list
            /\ Z.of_nat (length rows)
               <= (current_operation (fst (for_each body sites st))
                   - current_operation st) * max_links_per_site settings)
    as [rows [Heq Hlen]].
  { apply (for_each_invariant
             (fun st' =>
                exists rows,
                  results st' = (results st ++ rows)%list
                  /\ Z.of_nat (length rows)
                     <= (current_operation st' - current_operation st)
                        * max_links_per_site settings)).
    - intros st0 [site_name config] _ [rows [Heq Hlen]]. unfold body.
      rewrite run_task_count.
      destruct (run_task_rows driver now settings total brand keyword
                  (str brand ++ " " ++ keyword) st0 site_name config)
        as [new [-> [Hnew _]]].
      specialize (Hnew Hcap).
      exists (rows ++ new)%list. rewrite Heq, <- app_assoc.
      split; [reflexivity|]. rewrite length_app. lia.
    - exists []. rewrite app_nil_r. split; [reflexivity | simpl; lia]. }
  destruct (for_each_count_le body (fun _ => 1) sites st) as [Hlo Hhi].
  - intros _. lia.
  - intros st0 site _. unfold body. rewrite run_task_count. lia.
  - rewrite Zsum_const in Hhi. exists rows. split; [exact Heq|]. nia.
Qed.

(** X11: every link a task collects is the non-empty href of an element
    that one of the site's selectors found on the task's page, and holds
    the site's domain. *)
Theorem collected_links_from_page `{SM : SequenceMatcher}
    (settings : Settings) (page : Page) (config : SiteConfig) (brand : cell)
    (url : string) (s : gset string) :
  snd (scrape settings page config brand url) = Ok s ->
  forall h, h ∈ s ->
    h <> EmptyString
    /\ Str.contains (domain_check config) h = true
    /\ exists selector found link,
         In selector (selectors_of config)
         /\ find_elements page selector = Ok found
         /\ In link found
         /\ get_attribute link "href" = Ok (Some h).
Proof.
  intros Hok h Hh.
  destruct (scrape_ok_links settings page config brand url s Hok)
    as [links [Hfind Hscan]].
  destruct (scan_links_from settings config brand links ∅ s Hscan h Hh)
    as [Hempty | [Hne [link [Hlink Hhref]]]].
  { apply not_elem_of_empty in Hempty. contradiction. }
  split; [exact Hne|]. split.
  - eapply scan_links_domain; [|exact Hscan|exact Hh].
    intros h' Hh'. apply not_elem_of_empty in Hh'. contradiction.
  - destruct (find_links_from page config links Hfind link Hlink)
      as [selector [found [Hsel [Hfound Hin]]]].
    exists selector, found, link. auto.
Qed.

(** X12: a task whose Brand cell is not a string (a missing cell is the
    float NaN) adds no row to the result table, whatever its page shows. *)
Theorem task_without_brand_text `{SM : SequenceMatcher}
    (driver : WebDriver) (now : nat -> string) (settings : Settings)
    (total : Z) (brand : cell) (keyword term : string) (st : State)
    (site : string * SiteConfig) :
  (forall b, brand <> Text b) ->
  results (fst (run_task driver now settings total brand keyword term st
                  site))
  = results st.
Proof.
  intros Hbrand. unfold run_task. destruct site as [site_name config].
  destruct (total =? 0); [reflexivity|].
  set (url := format (url_template config) (formatted_term config term) "1").
  set (page := page_at driver (current_operation st + 1) url).
  destruct (scrape settings page config brand url) as [evs [s|e]] eqn:Hs;
    [|reflexivity].
  assert (snd (scrape settings page config brand url) = Ok s) as Hok
    by now rewrite Hs.
  destruct (scrape_ok _ _ _ _ _ _ Hok) as [links Hlinks].
  apply (scan_links_needs_text settings config brand links ∅ s Hbrand)
    in Hlinks.
  subst s. simpl. apply append_rows_empty.
Qed.

(** X13: once the cap is reached the loop over the links stops: the links
    after the one that filled the set are not read, so what they are, or
    whether reading them would fail, changes nothing. *)
Theorem scan_links_stops_at_cap `{SM : SequenceMatcher}
    (settings : Settings) (config : SiteConfig) (brand : cell)
    (links more : list WebElement) (u s : gset string) :
  Z.of_nat (size u) < max_links_per_site settings ->
  scan_links settings config brand links u = Ok s ->
  max_links_per_site settings <= Z.of_nat (size s) ->
  scan_links settings config brand (links ++ more)%list u = Ok s.
Proof.
  revert u. induction links as [|link rest IH]; intros u Hu; simpl.
  - intros [= <-] Hcap. lia.
  - destruct (get_attribute link "href") as [[h|]|e]; simpl;
      [ | apply IH; exact Hu | discriminate ].
    destruct (negb (String.eqb h EmptyString)
              && Str.contains (domain_check config) h);
      [ | apply IH; exact Hu ].
    destruct (should_add settings config brand link h) as [add|e]; simpl;
      [ | discriminate ].
    destruct (max_links_per_site settings <=? _) eqn:Hcap; [auto|].
    apply IH. apply Z.leb_gt in Hcap. exact Hcap.
Qed.

(** ** Case and spaces *)

Lemma lower_char_idem (c : ascii) :
  Str.lower_char (Str.lower_char c) = Str.lower_char c.
Proof.
  destruct c as [[] [] [] [] [] [] [] []]; vm_compute; reflexivity.
Qed.

Lemma lower_char_space (c : ascii) :
  Ascii.eqb " " (Str.lower_char c) = Ascii.eqb " " c.
Proof.
  destruct c as [[] [] [] [] [] [] [] []]; vm_compute; reflexivity.
Qed.

Lemma lower_idem (s : string) : Str.lower (Str.lower s) = Str.lower s.
Proof.
  induction s as [|c s IH]; [reflexivity|].
  cbn [Str.lower]. now rewrite lower_char_idem, IH.
Qed.

Lemma lower_empty (s : string) : Str.lower s = EmptyString -> s = EmptyString.
Proof. destruct s; [reflexivity | discriminate]. Qed.

Lemma prefix_char (c d : ascii) (s : string) :
  String.prefix (String c EmptyString) (String d s) = Ascii.eqb c d.
Proof.
  destruct (Ascii.eqb_spec c d) as [->|Hne].
  - apply prefix_true_iff. exists s. reflexivity.
  - destruct (String.prefix _ _) eqn:Hp; [|reflexivity].
    apply prefix_true_iff in Hp as [post Hp]. inversion Hp. congruence.
Qed.

Lemma contains_char (c : ascii) (s : string) :
  Str.contains (String c EmptyString) s = has_char c s.
Proof.
  induction s as [|d s IH]; rewrite contains_step.
  - destruct (String.prefix _ _) eqn:Hp; [|reflexivity].
    apply prefix_true_iff in Hp as [post Hp]. discriminate.
  - rewrite prefix_char, IH. reflexivity.
Qed.

Lemma has_char_app (c : ascii) (s1 s2 : string) :
  has_char c (s1 ++ s2) = has_char c s1 || has_char c s2.
Proof.
  induction s1 as [|d s1 IH]; [reflexivity|].
  change (has_char c (String d (s1 ++ s2))
          = has_char c (String d s1) || has_char c s2).
  cbn [has_char]. rewrite IH. apply orb_assoc.
Qed.

Lemma has_space_lower (s : string) :
  has_char " " (Str.lower s) = has_char " " s.
Proof.
  induction s as [|d s IH]; [reflexivity|].
  cbn [Str.lower has_char]. now rewrite lower_char_space, IH.
Qed.

Lemma has_space_replace (by_ s : string) :
  has_char " " by_ = false ->
  has_char " " (Str.replace_space by_ s) = false.
Proof.
  intros Hby. induction s as [|d s IH]; [reflexivity|].
  cbn [Str.replace_space].
  destruct (Ascii.eqb_spec d " ") as [->|Hne].
  - rewrite has_char_app, Hby, IH. reflexivity.
  - cbn [has_char]. rewrite IH.
    destruct (Ascii.eqb_spec " " d) as [<-|_]; [contradiction | reflexivity].
Qed.

Lemma formatted_term_space_free (config : SiteConfig) (term : string) :
  Str.contains " " (url_encoding config) = false ->
  Str.contains " " (formatted_term config term) = false.
Proof.
  intros Henc. rewrite contains_char in *. unfold formatted_term.
  destruct (String.eqb (url_encoding config) "-").
  - rewrite has_space_lower. apply has_space_replace. reflexivity.
  - apply has_space_replace. exact Henc.
Qed.

(** X14: the search term put into the URL holds no space as long as the
    site's separator holds none, and with the hyphen separator it is all
    lower case. *)
Theorem formatted_term_no_space (config : SiteConfig) (term : string) :
  Str.contains " " (url_encoding config) = false ->
  Str.contains " " (formatted_term config term) = false
  /\ (url_encoding config = "-" ->
      Str.lower (formatted_term config term) = formatted_term config term).
Proof.
  intros Henc. split; [apply formatted_term_space_free; exact Henc|].
  intros Hhyphen. unfold formatted_term. rewrite Hhyphen. simpl.
  apply lower_idem.
Qed.

(** X15: the empty brand matches every text, and the empty text is
    matched by the empty brand only; both at every threshold, with fuzzy
    matching on or off. *)
Theorem fuzzy_match_brand_empty `{SM : SequenceMatcher}
    (enabled : bool) (t : Z) :
  (forall text, fuzzy_match_brand enabled text EmptyString t = true)
  /\ (forall brand,
        fuzzy_match_brand enabled EmptyString brand t = true
        <-> brand = EmptyString).
Proof.
  split.
  - intros text. unfold fuzzy_match_brand.
    assert (Str.contains (Str.lower EmptyString) (Str.lower text) = true)
      as H.
    { apply contains_true_iff. exists EmptyString, (Str.lower text).
      reflexivity. }
    destruct enabled; simpl in *; now rewrite H.
  - intros brand.
    assert (Str.contains (Str.lower brand) EmptyString = true
            <-> brand = EmptyString) as H.
    { rewrite contains_true_iff. split.
      - intros [pre [post Hp]]. apply lower_empty.
        destruct pre; [|discriminate]. simpl in Hp.
        destruct (Str.lower brand); [reflexivity | discriminate].
      - intros ->. exists EmptyString, EmptyString. reflexivity. }
    unfold fuzzy_match_brand.
    change (Str.lower EmptyString) with EmptyString.
    change (Str.split EmptyString) with (@nil string).
    set (c := Str.contains (Str.lower brand) EmptyString) in *.
    destruct enabled, c; cbn [negb scan_words]; exact H.
Qed.

(** X16: matching ignores case: texts that agree once lowercased, and
    brands that agree once lowercased, get the same answer; so lowercasing
    the text and the brand beforehand changes nothing. *)
Theorem fuzzy_match_brand_ignores_case `{SM : SequenceMatcher}
    (enabled : bool) (text text' brand brand' : string) (t : Z) :
  Str.lower text = Str.lower text' ->
  Str.lower brand = Str.lower brand' ->
  fuzzy_match_brand enabled text brand t
  = fuzzy_match_brand enabled text' brand' t
  /\ fuzzy_match_brand enabled text brand t
     = fuzzy_match_brand enabled (Str.lower text) (Str.lower brand) t.
Proof.
  intros Htext Hbrand. unfold fuzzy_match_brand.
  rewrite !lower_idem, Htext, Hbrand. split; reflexivity.
Qed.

(** ** The profiles of the selected sites *)

Lemma site_enabled_true (cfg : gmap string bool) (k : string) :
  site_enabled cfg k = true <-> cfg !! k = Some true.
Proof.
  unfold site_enabled. destruct (cfg !! k) as [[]|]; simpl;
    split; congruence.
Qed.

(** X17: [get_site_configs] gives the profiles of the registry whose name
    is switched on in [sites_config], in the order of the registry and
    each once; a name missing from [sites_config] is off, and a name that
    is not in the registry is ignored. *)
Theorem get_site_configs_selected (cfg : gmap string bool) :
  sublist (get_site_configs cfg) all_configs
  /\ NoDup (map fst (get_site_configs cfg))
  /\ forall k, In k (map fst (get_site_configs cfg))
               <-> In k (map fst all_configs) /\ cfg !! k = Some true.
Proof.
  split; [|split].
  - unfold get_site_configs. induction all_configs as [|kv l IH]; simpl.
    + constructor.
    + destruct (site_enabled cfg (fst kv)); now constructor.
  - unfold get_site_configs, all_configs. simpl.
    destruct (site_enabled cfg "Alibaba"), (site_enabled cfg "DHgate"),
      (site_enabled cfg "Made-in-China");
      simpl; rewrite ?NoDup_cons, ?elem_of_cons, ?elem_of_nil;
      repeat split; try apply NoDup_nil_2; intuition discriminate.
  - intros k. rewrite <- site_enabled_true. rewrite !in_map_iff. split.
    + intros [[k' c] [Hk Hin]]. simpl in Hk. subst k'.
      apply get_site_configs_In in Hin as [Hall Hon].
      split; [|exact Hon]. exists (k, c). auto.
    + intros [[[k' c] [Hk Hin]] Hon]. simpl in Hk. subst k'.
      exists (k, c). split; [reflexivity|].
      apply get_site_configs_In. auto.
Qed.

(** ** A selector that fails, and the URL of a task *)

Lemma extend_links_raise (page : Page) (before after : list string)
    (selector : string) (founds : list (list WebElement))
    (links : list WebElement) (e : exn) :
  Forall2 (fun sel found => find_elements page sel = Ok found)
          before founds ->
  find_elements page selector = Raise e ->
  extend_links page (before ++ selector :: after)%list links
  = (map driver_find_elements (before ++ [selector])%list, Raise e).
Proof.
  intros H Hraise. revert links.
  induction H as [|sel found before founds Hsel _ IH]; intros links; simpl.
  - unfold and_then, call. rewrite Hraise. reflexivity.
  - unfold and_then, call. rewrite Hsel, IH. reflexivity.
Qed.

(** X18: when the primary selector finds nothing and a fallback selector
    raises, the selectors after it are not queried, what the earlier
    fallbacks found is lost, and the extraction ends with that error. *)
Theorem find_links_fallback_raises (page : Page) (config : SiteConfig)
    (before after : list string) (selector : string)
    (founds : list (list WebElement)) (e : exn) :
  find_elements page (product_selector config) = Ok [] ->
  additional_selectors config = (before ++ selector :: after)%list ->
  Forall2 (fun sel found => find_elements page sel = Ok found)
          before founds ->
  find_elements page selector = Raise e ->
  find_links page config
  = (driver_find_elements (product_selector config)
       :: map driver_find_elements (before ++ [selector])%list,
     Raise e).
Proof.
  intros Hnone Hsels Hbefore Hraise.
  unfold find_links, and_then, call. rewrite Hnone, Hsels.
  destruct (before ++ selector :: after)%list as [|s l] eqn:Happ.
  { destruct before; discriminate. }
  rewrite <- Happ.
  rewrite (extend_links_raise page before after selector founds [] e
             Hbefore Hraise).
  reflexivity.
Qed.

Lemma has_space_format (template : list segment) (term page : string) :
  Forall (fun seg => match seg with
                     | Lit s => has_char " " s = false
                     | _ => True
                     end) template ->
  has_char " " term = false -> has_char " " page = false ->
  has_char " " (format template term page) = false.
Proof.
  intros Htemplate Hterm Hpage. unfold format.
  induction Htemplate as [|seg template Hseg _ IH]; [reflexivity|].
  cbn [fold_right]. destruct seg; rewrite has_char_app, IH.
  - now rewrite Hseg.
  - now rewrite Hterm.
  - now rewrite Hpage.
Qed.

(** X19: the URL a task asks for holds no space, for each of the three
    sites and every brand and keyword. *)
Theorem search_url_no_space (site_name : string) (config : SiteConfig)
    (search_term : string) :
  In (site_name, config) all_configs ->
  Str.contains " "
    (format (url_template config) (formatted_term config search_term) "1")
  = false.
Proof.
  intros Hin. rewrite contains_char.
  assert (has_char " " (formatted_term config search_term) = false) as Hterm.
  { rewrite <- contains_char. apply formatted_term_space_free.
    destruct Hin as [[= <- <-] | [[= <- <-] | [[= <- <-] | []]]];
      reflexivity. }
  apply has_space_format; [|exact Hterm|reflexivity].
  destruct Hin as [[= <- <-] | [[= <- <-] | [[= <- <-] | []]]];
    repeat constructor.
Qed.

(** ** The further properties at concrete inputs *)

Lemma full_table_valid :
  validate Demo.full_table <> no_brand_column /\ well_formed Demo.full_table.
Proof. split; [discriminate | repeat constructor]. Qed.

Lemma run_scraper_returns_witness :
  validate Demo.full_table <> no_brand_column
  /\ well_formed Demo.full_table
  /\ exists out,
       snd (run_scraper (SM := Difflib.matcher) Demo.flaky Demo.clock
              Demo.fuzzy_on Demo.full_table) = Ok out.
Proof.
  destruct full_table_valid as [Hvalid Hwf].
  split; [exact Hvalid|]. split; [exact Hwf|].
  exact (run_scraper_returns (SM := Difflib.matcher) Demo.flaky Demo.clock
           Demo.fuzzy_on Demo.full_table Hvalid Hwf).
Defined.

Lemma run_scraper_missing_brand_witness :
  run_scraper (SM := Difflib.matcher) (Demo.chrome Demo.catalog) Demo.clock
    Demo.fuzzy_on Demo.no_brand_table
  = ([driver_quit], Raise (KeyError "Brand")).
Proof.
  apply (run_scraper_missing_brand (SM := Difflib.matcher)
           (Demo.chrome Demo.catalog) Demo.clock Demo.fuzzy_on
           Demo.no_brand_table);
    [reflexivity | reflexivity | discriminate].
Defined.

Lemma run_scraper_nothing_to_do_witness :
  run_scraper (SM := Difflib.matcher) (Demo.chrome Demo.catalog) Demo.clock
    Demo.fuzzy_on Demo.no_brands
  = ([driver_quit], Ok None).
Proof.
  apply (run_scraper_nothing_to_do (SM := Difflib.matcher)
           (Demo.chrome Demo.catalog) Demo.clock Demo.fuzzy_on
           Demo.no_brands);
    [reflexivity | discriminate | constructor | reflexivity].
Defined.

Lemma one_page_load_per_task_witness :
  page_loads
    (fst (run_scraper (SM := Difflib.matcher) Demo.flaky Demo.clock
            Demo.fuzzy_on Demo.full_table))
  = 2.
Proof.
  destruct full_table_valid as [Hvalid Hwf].
  rewrite (one_page_load_per_task (SM := Difflib.matcher) Demo.flaky
             Demo.clock Demo.fuzzy_on Demo.full_table eq_refl Hvalid Hwf).
  vm_compute. reflexivity.
Defined.

Lemma result_rows_from_table_witness :
  snd (run_scraper (SM := Difflib.matcher) (Demo.chrome Demo.catalog)
         Demo.clock Demo.fuzzy_on Demo.full_table)
  = Ok (Some Demo.full_result)
  /\ Forall (row_from Demo.full_table) Demo.full_result.
Proof.
  assert (snd (run_scraper (SM := Difflib.matcher) (Demo.chrome Demo.catalog)
                 Demo.clock Demo.fuzzy_on Demo.full_table)
          = Ok (Some Demo.full_result)) as H by (vm_compute; reflexivity).
  split; [exact H|].
  exact (result_rows_from_table (SM := Difflib.matcher)
           (Demo.chrome Demo.catalog) Demo.clock Demo.fuzzy_on
           Demo.full_table Demo.full_result H).
Defined.

Lemma result_table_bounded_witness :
  1 <= max_links_per_site Demo.fuzzy_on
  /\ Z.of_nat (length Demo.full_result)
     <= total_operations_of Demo.full_table
          (get_site_configs (sites_config Demo.fuzzy_on))
        * max_links_per_site Demo.fuzzy_on.
Proof.
  assert (1 <= max_links_per_site Demo.fuzzy_on) as Hcap by (simpl; lia).
  split; [exact Hcap|].
  apply (result_table_bounded (SM := Difflib.matcher)
           (Demo.chrome Demo.catalog) Demo.clock Demo.fuzzy_on
           Demo.full_table Demo.full_result Hcap).
  vm_compute. reflexivity.
Defined.

Lemma keyword_rows_bounded_witness :
  1 <= max_links_per_site Demo.cap_one
  /\ exists rows,
       results
         (fst (run_keyword (SM := Difflib.matcher) (Demo.chrome Demo.catalog)
                 Demo.clock Demo.cap_one 1 [("DHgate", dhgate)] (Text "Acme")
                 initial "shoes"))
       = ([] ++ rows)%list
       /\ Z.of_nat (length rows) <= 1 * 1.
Proof.
  assert (1 <= max_links_per_site Demo.cap_one) as Hcap by (simpl; lia).
  split; [exact Hcap|].
  exact (keyword_rows_bounded (SM := Difflib.matcher)
           (Demo.chrome Demo.catalog) Demo.clock Demo.cap_one 1
           [("DHgate", dhgate)] (Text "Acme") initial "shoes" Hcap).
Defined.

Lemma collected_links_from_page_witness :
  snd (scrape (SM := Difflib.matcher) Demo.fuzzy_on Demo.catalog dhgate
         (Text "Acme") "https://www.dhgate.com/")
  = Ok Demo.collected
  /\ exists selector found link,
       In selector (selectors_of dhgate)
       /\ find_elements Demo.catalog selector = Ok found
       /\ In link found
       /\ get_attribute link "href"
          = Ok (Some "https://www.dhgate.com/product/4").
Proof.
  assert (snd (scrape (SM := Difflib.matcher) Demo.fuzzy_on Demo.catalog
                 dhgate (Text "Acme") "https://www.dhgate.com/")
          = Ok Demo.collected) as H by (vm_compute; reflexivity).
  split; [exact H|].
  apply (collected_links_from_page (SM := Difflib.matcher) Demo.fuzzy_on
           Demo.catalog dhgate (Text "Acme") "https://www.dhgate.com/"
           Demo.collected H "https://www.dhgate.com/product/4").
  unfold Demo.collected. apply elem_of_union. right.
  apply elem_of_singleton. reflexivity.
Defined.

Lemma task_without_brand_text_witness :
  results
    (fst (run_task (SM := Difflib.matcher) (Demo.chrome Demo.catalog)
            Demo.clock Demo.fuzzy_off 1 NaN "shoes" "nan shoes" initial
            ("DHgate", dhgate)))
  = [].
Proof.
  apply (task_without_brand_text (SM := Difflib.matcher)
           (Demo.chrome Demo.catalog) Demo.clock Demo.fuzzy_off 1 NaN
           "shoes" "nan shoes" initial ("DHgate", dhgate)).
  intros b. discriminate.
Defined.

Lemma formatted_term_no_space_witness :
  Str.contains " " (url_encoding made_in_china) = false
  /\ Str.contains " " (formatted_term made_in_china "Acme Running Shoes")
     = false
  /\ Str.lower (formatted_term made_in_china "Acme Running Shoes")
     = formatted_term made_in_china "Acme Running Shoes".
Proof.
  assert (Str.contains " " (url_encoding made_in_china) = false) as H
    by reflexivity.
  split; [exact H|].
  destruct (formatted_term_no_space made_in_china "Acme Running Shoes" H)
    as [Hspace Hlower].
  split; [exact Hspace | exact (Hlower eq_refl)].
Defined.

Lemma scan_links_stops_at_cap_witness :
  scan_links (SM := Difflib.matcher) Demo.cap_one Demo.x_test (Text "Acme")
    ([Demo.anchor "https://x.test/item/1" "Acme Shoes Deluxe"]
       ++ [Demo.stale])%list ∅
  = Ok {[ "https://x.test/item/1" ]}.
Proof.
  apply (scan_links_stops_at_cap (SM := Difflib.matcher) Demo.cap_one
           Demo.x_test (Text "Acme")
           [Demo.anchor "https://x.test/item/1" "Acme Shoes Deluxe"]
           [Demo.stale] ∅ {[ "https://x.test/item/1" ]}).
  - vm_compute. reflexivity.
  - vm_compute. reflexivity.
  - vm_compute. discriminate.
Defined.

Lemma fuzzy_match_brand_ignores_case_witness :
  Str.lower "ACME shoes" = Str.lower "Acme Shoes"
  /\ Str.lower "akme" = Str.lower "AKME"
  /\ fuzzy_match_brand (SM := Difflib.matcher) true "ACME shoes" "akme" 70
     = fuzzy_match_brand (SM := Difflib.matcher) true "Acme Shoes" "AKME" 70.
Proof.
  split; [reflexivity|]. split; [reflexivity|].
  exact (proj1 (fuzzy_match_brand_ignores_case (SM := Difflib.matcher) true
                  "ACME shoes" "Acme Shoes" "akme" "AKME" 70
                  eq_refl eq_refl)).
Defined.

Lemma find_links_fallback_raises_witness :
  find_links
    {| get := Ok tt; execute_script := fun _ => Ok tt;
       find_elements := fun selector =>
         if String.eqb selector ".item-link a"
         then Raise (WebDriverException "invalid session id")
         else Ok [] |}
    made_in_china
  = ([driver_find_elements (product_selector made_in_china);
      driver_find_elements ("a[href*=" ++ dq ++ "/prod/" ++ dq ++ "]");
      driver_find_elements ".item-link a"],
     Raise (WebDriverException "invalid session id")).
Proof.
  apply (find_links_fallback_raises _ made_in_china
           ["a[href*=" ++ dq ++ "/prod/" ++ dq ++ "]"] [".product-item a"]
           ".item-link a" [ [] ]
           (WebDriverException "invalid session id"));
    [reflexivity | reflexivity | repeat constructor | reflexivity].
Defined.

Lemma search_url_no_space_witness :
  In ("Alibaba", alibaba) all_configs
  /\ Str.contains " "
       (format (url_template alibaba)
          (formatted_term alibaba "Acme running shoes") "1")
     = false.
Proof.
  assert (In ("Alibaba", alibaba) all_configs) as H by (left; reflexivity).
  split; [exact H|].
  exact (search_url_no_space "Alibaba" alibaba "Acme running shoes" H).
Defined.
